(** * Click/referral tracking core of the course bot (bot.py)

    A shallow embedding of the persistence functions of [bot.py]:
    [init_db], [add_user], [update_user_activity], [add_click],
    [get_user_stats] and the statistics queries of [admin_panel], over a
    model of the two SQLite tables they touch, followed by the properties
    of the registry and of the click ledger. *)

From Stdlib Require Import ZArith List String Ascii Bool Lia.
From Stdlib Require Import Permutation Sorted DecimalString.
From Stdlib Require DecimalPos DecimalFacts.
Import ListNotations.
Local Open Scope string_scope.
Local Open Scope list_scope.
Local Open Scope Z_scope.

(** ** hashlib.md5

    [add_user] derives the referral code from [hashlib.md5(...).hexdigest()].
    The digest is RFC 1321 on 32-bit words, words being [Z] reduced modulo
    [2^32]. *)
Module MD5.

Definition wrap32 (x : Z) : Z := x mod 2 ^ 32.

Definition add32 (x y : Z) : Z := wrap32 (x + y).

Definition not32 (x : Z) : Z := Z.lxor x (2 ^ 32 - 1).

Definition rotl32 (x n : Z) : Z :=
  Z.lor (wrap32 (Z.shiftl x n)) (Z.shiftr x (32 - n)).

(** Per-round left rotations. *)
Definition S : list Z :=
  [7; 12; 17; 22; 7; 12; 17; 22; 7; 12; 17; 22; 7; 12; 17; 22;
   5; 9; 14; 20; 5; 9; 14; 20; 5; 9; 14; 20; 5; 9; 14; 20;
   4; 11; 16; 23; 4; 11; 16; 23; 4; 11; 16; 23; 4; 11; 16; 23;
   6; 10; 15; 21; 6; 10; 15; 21; 6; 10; 15; 21; 6; 10; 15; 21].

(** [K i = floor (2^32 * abs (sin (i + 1)))]. *)
Definition K : list Z :=
  [3614090360; 3905402710; 606105819; 3250441966;
   4118548399; 1200080426; 2821735955; 4249261313;
   1770035416; 2336552879; 4294925233; 2304563134;
   1804603682; 4254626195; 2792965006; 1236535329;
   4129170786; 3225465664; 643717713; 3921069994;
   3593408605; 38016083; 3634488961; 3889429448;
   568446438; 3275163606; 4107603335; 1163531501;
   2850285829; 4243563512; 1735328473; 2368359562;
   4294588738; 2272392833; 1839030562; 4259657740;
   2763975236; 1272893353; 4139469664; 3200236656;
   681279174; 3936430074; 3572445317; 76029189;
   3654602809; 3873151461; 530742520; 3299628645;
   4096336452; 1126891415; 2878612391; 4237533241;
   1700485571; 2399980690; 4293915773; 2240044497;
   1873313359; 4264355552; 2734768916; 1309151649;
   4149444226; 3174756917; 718787259; 3951481745].

Definition word_state : Type := (Z * Z * Z * Z)%type.

Definition init_state : word_state :=
  (1732584193, 4023233417, 2562383102, 271733878).

(** Little-endian 32-bit word out of four bytes. *)
Definition word_of_bytes (bs : list Z) : Z :=
  nth 0 bs 0 + 256 * (nth 1 bs 0 + 256 * (nth 2 bs 0 + 256 * nth 3 bs 0)).

Fixpoint words_of_block (n : nat) (bs : list Z) : list Z :=
  match n with
  | O => []
  | Datatypes.S n' => word_of_bytes (firstn 4 bs) :: words_of_block n' (skipn 4 bs)
  end.

Definition bytes_of_word (w : Z) : list Z :=
  [w mod 256; (w / 256) mod 256; (w / 65536) mod 256; (w / 16777216) mod 256].

(** Bit length of the message as eight little-endian bytes. *)
Fixpoint length_bytes (n : nat) (v : Z) : list Z :=
  match n with
  | O => []
  | Datatypes.S n' => v mod 256 :: length_bytes n' (v / 256)
  end.

(** Message, one [0x80] byte, zeros up to 56 modulo 64, the bit length. *)
Definition pad (msg : list Z) : list Z :=
  let len := Z.of_nat (List.length msg) in
  let zeros := Z.to_nat ((55 - len) mod 64) in
  msg ++ [128] ++ repeat 0 zeros ++ length_bytes 8 (wrap32 (8 * len) + 2 ^ 32 * ((8 * len) / 2 ^ 32)).

Definition round (M : list Z) (st : word_state) (i : nat) : word_state :=
  let '(a, b, c, d) := st in
  let iz := Z.of_nat i in
  let '(f, g) :=
    if iz <? 16 then (Z.lor (Z.land b c) (Z.land (not32 b) d), iz)
    else if iz <? 32 then (Z.lor (Z.land d b) (Z.land (not32 d) c), (5 * iz + 1) mod 16)
    else if iz <? 48 then (Z.lxor (Z.lxor b c) d, (3 * iz + 5) mod 16)
    else (Z.lxor c (Z.lor b (not32 d)), (7 * iz) mod 16) in
  let f' := add32 (add32 (add32 f a) (nth i K 0)) (nth (Z.to_nat g) M 0) in
  (d, add32 b (rotl32 f' (nth i S 0)), b, c).

Definition process_block (st : word_state) (block : list Z) : word_state :=
  let M := words_of_block 16 block in
  let '(a, b, c, d) := fold_left (round M) (seq 0 64) st in
  let '(a0, b0, c0, d0) := st in
  (add32 a0 a, add32 b0 b, add32 c0 c, add32 d0 d).

Fixpoint process_blocks (n : nat) (st : word_state) (bs : list Z) : word_state :=
  match n with
  | O => st
  | Datatypes.S n' => process_blocks n' (process_block st (firstn 64 bs)) (skipn 64 bs)
  end.

Definition digest (msg : list Z) : list Z :=
  let p := pad msg in
  let '(a, b, c, d) := process_blocks (List.length p / 64) init_state p in
  bytes_of_word a ++ bytes_of_word b ++ bytes_of_word c ++ bytes_of_word d.

Definition hex_digit (n : Z) : ascii :=
  nth (Z.to_nat n)
      ["0"; "1"; "2"; "3"; "4"; "5"; "6"; "7";
       "8"; "9"; "a"; "b"; "c"; "d"; "e"; "f"]%char "0"%char.

Fixpoint hex_of_bytes (bs : list Z) : string :=
  match bs with
  | [] => EmptyString
  | b :: bs' => String (hex_digit (b / 16)) (String (hex_digit (b mod 16)) (hex_of_bytes bs'))
  end.

(** [str.encode()]: the UTF-8 bytes of the text, which a string holds. *)
Definition encode (s : string) : list Z :=
  map (fun c => Z.of_nat (nat_of_ascii c)) (list_ascii_of_string s).

(** [hashlib.md5(s.encode()).hexdigest()] *)
Definition hexdigest (s : string) : string := hex_of_bytes (digest (encode s)).

End MD5.

(** ** The store

    The two tables of [init_db] that the tracking functions use.  A
    [TIMESTAMP] column holds the text that [CURRENT_TIMESTAMP] produces
    (UTC, one-second resolution, fixed width, so that the text order SQLite
    compares by is the order of the instants); a row keeps the instant as
    the number of seconds since the epoch. *)

Record user_row : Type := mk_user {
  u_id : Z;                    (* id INTEGER PRIMARY KEY AUTOINCREMENT *)
  telegram_id : Z;             (* telegram_id INTEGER UNIQUE NOT NULL *)
  username : string;
  first_name : string;
  last_name : string;
  registered_at : Z;           (* DEFAULT CURRENT_TIMESTAMP *)
  clicks_count : Z;            (* DEFAULT 0 *)
  ref_code : string;           (* ref_code TEXT UNIQUE *)
  referrer_id : option Z;      (* referrer_id INTEGER, no FOREIGN KEY *)
  last_active : Z              (* DEFAULT CURRENT_TIMESTAMP *)
}.

Record click_row : Type := mk_click {
  c_id : Z;                    (* id INTEGER PRIMARY KEY AUTOINCREMENT *)
  c_user_id : Z;               (* user_id INTEGER NOT NULL *)
  platform : string;           (* platform TEXT NOT NULL *)
  course_id : option Z;        (* course_id INTEGER *)
  clicked_at : Z               (* DEFAULT CURRENT_TIMESTAMP *)
}.

(** [seq_users] and [seq_clicks] are the rows of [sqlite_sequence] that
    AUTOINCREMENT keeps: the largest rowid handed out so far. *)
Record db : Type := mk_db {
  users : list user_row;
  clicks : list click_row;
  seq_users : Z;
  seq_clicks : Z
}.

Definition empty_db : db := mk_db [] [] 0 0.

(** [init_db]: every statement is CREATE ... IF NOT EXISTS, so a store that
    exists is left as it is and a missing one starts with empty tables. *)
Definition init_db (existing : option db) : db :=
  match existing with
  | Some d => d
  | None => empty_db
  end.

(** The rowid AUTOINCREMENT picks: one more than the largest rowid the
    table has or ever had. *)
Definition next_rowid (seq : Z) (ids : list Z) : Z :=
  Z.max seq (fold_right Z.max 0 ids) + 1.

(** ** Constants of the module *)

Definition PARTNER_LINKS : list (string * string) :=
  [("skillbox", "https://l.skbx.pro/DQLFW6");
   ("skillfactory", "https://go.redav.online/26e5202921d69dd1");
   ("geekbrains", "https://go.redav.online/17d53d9e858961e1")].

(** [key in dict] *)
Definition dict_in {V : Type} (key : string) (dict : list (string * V)) : bool :=
  existsb (String.eqb key) (map fst dict).

(** ** Logging, exceptions and the connection *)

Inductive level : Type := INFO | WARNING | ERROR.

(** One constructor per [logger] call of the tracking functions. *)
Inductive event : Type :=
| NewUser (telegram_id : Z) (username : string)
| AddUserFailed
| ActivityFailed
| UnknownPlatform (platform : string)
| UserNotFound (telegram_id : Z)
| ClickAdded (telegram_id : Z) (platform : string) (course_id : option Z)
| ClickFailed
| StatsFailed.

Definition log_record : Type := (level * event)%type.

(** The exceptions of the store calls: [StoreError] when a statement or a
    commit fails, [OverflowError] when a parameter of a statement is a
    Python [int] that does not fit an SQLite INTEGER. *)
Inductive exn : Type := StoreError | OverflowError.

Inductive outcome (A : Type) : Type :=
| Returned (a : A)
| Raised (e : exn).
Arguments Returned {A} a.
Arguments Raised {A} e.

(** A connection of [get_db_connection]: [disk] is the committed store,
    [txn] what the open transaction sees.  [calls] counts the statements
    and commits issued so far and [fault] names the one that fails, if any:
    this is how a store failure in the middle of a function is injected.
    Opening the connection, which the functions do before their [try], and
    closing it are taken to succeed. *)
Record session : Type := mk_session {
  disk : db;
  txn : db;
  calls : nat;
  fault : option nat;
  log : list log_record
}.

Definition M (A : Type) : Type := session -> outcome A * session.

Definition ret {A : Type} (a : A) : M A := fun s => (Returned a, s).

Definition bind {A B : Type} (m : M A) (k : A -> M B) : M B :=
  fun s =>
    match m s with
    | (Returned a, s') => k a s'
    | (Raised e, s') => (Raised e, s')
    end.

Declare Scope store_scope.
Delimit Scope store_scope with store.
Notation "x <- m ;; k" := (bind m (fun x => k))
  (at level 61, m at next level, right associativity) : store_scope.
Notation "m ;; k" := (bind m (fun _ => k))
  (at level 61, right associativity) : store_scope.
Local Open Scope store_scope.

Definition fails (s : session) : bool :=
  match fault s with
  | Some n => Nat.eqb n (calls s)
  | None => false
  end.

Definition tick (s : session) : session :=
  mk_session (disk s) (txn s) (Datatypes.S (calls s)) (fault s) (log s).

(** [cursor.execute(...)] with its fetch: the statement runs inside the
    transaction. *)
Definition execute {A : Type} (stmt : db -> A * db) : M A :=
  fun s =>
    if fails s then (Raised StoreError, tick s)
    else
      let '(a, d) := stmt (txn s) in
      (Returned a, mk_session (disk s) d (Datatypes.S (calls s)) (fault s) (log s)).

(** An SQLite INTEGER holds 64 bits, signed. *)
Definition int64 (z : Z) : bool := (- 2 ^ 63 <=? z) && (z <? 2 ^ 63).

(** A parameter of a statement that sqlite3 can bind: [None] is NULL. *)
Definition binds (v : option Z) : bool :=
  match v with
  | Some z => int64 z
  | None => true
  end.

(** The integer parameters of [cursor.execute(sql, parameters)] are bound
    before the statement runs; one that does not fit raises. *)
Definition bind_parameters (ps : list (option Z)) : M unit :=
  fun s => if forallb binds ps then (Returned tt, s) else (Raised OverflowError, s).

(** [conn.commit()] *)
Definition commit : M unit :=
  fun s =>
    if fails s then (Raised StoreError, tick s)
    else (Returned tt, mk_session (txn s) (txn s) (Datatypes.S (calls s)) (fault s) (log s)).

(** [conn.close()]: what was not committed is rolled back. *)
Definition close : M unit :=
  fun s => (Returned tt, mk_session (disk s) (disk s) (calls s) (fault s) (log s)).

Definition logger (l : level) (ev : event) : M unit :=
  fun s => (Returned tt, mk_session (disk s) (txn s) (calls s) (fault s) (log s ++ [(l, ev)])).

(** [try: body / except Exception: handler] *)
Definition try_except {A : Type} (body : M A) (handler : exn -> M A) : M A :=
  fun s =>
    match body s with
    | (Returned a, s') => (Returned a, s')
    | (Raised e, s') => handler e s'
    end.

(** [... finally: fin] *)
Definition finally {A : Type} (body : M A) (fin : M unit) : M A :=
  fun s =>
    let '(r, s') := body s in
    match fin s' with
    | (Returned _, s'') => (r, s'')
    | (Raised e, s'') => (Raised e, s'')
    end.

(** [get_db_connection()] on the store [d], the function run on it, and
    what is left for the caller: the outcome, the committed store, the log. *)
Definition get_db_connection (f : option nat) (d : db) : session :=
  mk_session d d 0 f [].

Definition run {A : Type} (m : M A) (f : option nat) (d : db)
  : outcome A * db * list log_record :=
  let '(r, s) := m (get_db_connection f d) in (r, disk s, log s).

Definition result_of {A : Type} (x : outcome A * db * list log_record) : outcome A :=
  fst (fst x).
Definition store_of {A : Type} (x : outcome A * db * list log_record) : db :=
  snd (fst x).
Definition log_of {A : Type} (x : outcome A * db * list log_record) : list log_record :=
  snd x.

(** ** SQL statements

    Each statement is a function of the store the transaction sees to the
    rows it yields and the store it leaves. *)

Definition seven_days : Z := 7 * 86400.

(** [INSERT OR IGNORE INTO users (telegram_id, username, first_name,
    last_name, ref_code, referrer_id, last_active) VALUES (?, ?, ?, ?, ?, ?,
    CURRENT_TIMESTAMP)].  The rowid is drawn from the AUTOINCREMENT
    sequence before the UNIQUE columns are checked: a row that violates one
    of the two is dropped, the sequence keeps the rowid it was given.  The
    result is [cursor.rowcount]. *)
Definition insert_or_ignore_user (tid : Z) (un fn ln code : string)
    (referrer : option Z) (now : Z) (d : db) : Z * db :=
  let id := next_rowid (seq_users d) (map u_id (users d)) in
  if existsb (fun u => (telegram_id u =? tid) || String.eqb (ref_code u) code) (users d)
  then (0, mk_db (users d) (clicks d) id (seq_clicks d))
  else
    (1, mk_db (users d ++ [mk_user id tid un fn ln now 0 code referrer now])
              (clicks d) id (seq_clicks d)).

Definition set_last_active (now : Z) (u : user_row) : user_row :=
  mk_user (u_id u) (telegram_id u) (username u) (first_name u) (last_name u)
          (registered_at u) (clicks_count u) (ref_code u) (referrer_id u) now.

(** [UPDATE users SET last_active = CURRENT_TIMESTAMP WHERE telegram_id = ?] *)
Definition update_last_active (tid now : Z) (d : db) : unit * db :=
  (tt, mk_db (map (fun u => if telegram_id u =? tid then set_last_active now u else u) (users d))
             (clicks d) (seq_users d) (seq_clicks d)).

(** [SELECT id FROM users WHERE telegram_id = ?] and [fetchone()] *)
Definition select_user_id (tid : Z) (d : db) : option Z * db :=
  (option_map u_id (find (fun u => telegram_id u =? tid) (users d)), d).

(** [INSERT INTO clicks (user_id, platform, course_id) VALUES (?, ?, ?)] *)
Definition insert_click (user_id : Z) (p : string) (course : option Z) (now : Z)
    (d : db) : unit * db :=
  let id := next_rowid (seq_clicks d) (map c_id (clicks d)) in
  (tt, mk_db (users d) (clicks d ++ [mk_click id user_id p course now])
             (seq_users d) id).

Definition count_click (now : Z) (u : user_row) : user_row :=
  mk_user (u_id u) (telegram_id u) (username u) (first_name u) (last_name u)
          (registered_at u) (clicks_count u + 1) (ref_code u) (referrer_id u) now.

(** [UPDATE users SET clicks_count = clicks_count + 1,
    last_active = CURRENT_TIMESTAMP WHERE id = ?] *)
Definition update_click_counter (user_id now : Z) (d : db) : unit * db :=
  (tt, mk_db (map (fun u => if u_id u =? user_id then count_click now u else u) (users d))
             (clicks d) (seq_users d) (seq_clicks d)).

(** [ORDER BY key DESC].  SQL leaves the order of rows with equal keys open;
    this one keeps them in the order they come in. *)
Fixpoint insert_desc {A : Type} (key : A -> Z) (x : A) (l : list A) : list A :=
  match l with
  | [] => [x]
  | y :: l' => if key x <? key y then y :: insert_desc key x l' else x :: y :: l'
  end.

Fixpoint order_by_desc {A : Type} (key : A -> Z) (l : list A) : list A :=
  match l with
  | [] => []
  | x :: l' => insert_desc key x (order_by_desc key l')
  end.

(** [SELECT k, COUNT( * ) ... GROUP BY k]: one row per distinct key. *)
Definition group_count {A : Type} (dec : forall x y : A, {x = y} + {x <> y})
    (keys : list A) : list (A * Z) :=
  map (fun k => (k, Z.of_nat (count_occ dec keys k))) (nodup dec keys).

(** The rows of [clicks c JOIN users u ON c.user_id = u.id
    WHERE u.telegram_id = ?], as their click. *)
Definition clicks_joined (tid : Z) (d : db) : list click_row :=
  flat_map
    (fun c => map (fun _ => c)
                  (filter (fun u => (u_id u =? c_user_id c) && (telegram_id u =? tid)) (users d)))
    (clicks d).

(** A row of the first query of [get_user_stats]: [u.*] and the two counts. *)
Record user_data : Type := mk_user_data {
  ud_row : user_row;
  platforms_count : Z;
  total_clicks : Z
}.

(** [SELECT u.*, COUNT(DISTINCT c.platform) as platforms_count,
           COUNT(c.id) as total_clicks
    FROM users u LEFT JOIN clicks c ON u.id = c.user_id
    WHERE u.telegram_id = ? GROUP BY u.id] and [fetchone()].
    [id] is the primary key, so each selected user is a group of its own. *)
Definition select_user_data (tid : Z) (d : db) : option user_data * db :=
  (match filter (fun u => telegram_id u =? tid) (users d) with
   | [] => None
   | u :: _ =>
       let cs := filter (fun c => c_user_id c =? u_id u) (clicks d) in
       Some (mk_user_data u
               (Z.of_nat (List.length (nodup string_dec (map platform cs))))
               (Z.of_nat (List.length cs)))
   end, d).

(** [SELECT platform, COUNT( * ) as clicks FROM clicks c JOIN users u ...
    WHERE u.telegram_id = ? GROUP BY platform ORDER BY clicks DESC] *)
Definition select_platforms_clicks (tid : Z) (d : db) : list (string * Z) * db :=
  (order_by_desc snd (group_count string_dec (map platform (clicks_joined tid d))), d).

(** [SELECT c.platform, c.clicked_at FROM clicks c JOIN users u ...
    WHERE u.telegram_id = ? ORDER BY c.clicked_at DESC LIMIT 5] *)
Definition select_recent_clicks (tid : Z) (d : db) : list (string * Z) * db :=
  (firstn 5 (map (fun c => (platform c, clicked_at c))
                 (order_by_desc clicked_at (clicks_joined tid d))), d).

(** The queries of [admin_panel]. *)

(** [SELECT COUNT( * ) as total FROM users] *)
Definition select_total_users (d : db) : Z * db :=
  (Z.of_nat (List.length (users d)), d).

(** [SELECT COUNT( * ) as total FROM clicks] *)
Definition select_total_clicks (d : db) : Z * db :=
  (Z.of_nat (List.length (clicks d)), d).

(** [SELECT COUNT(DISTINCT telegram_id) as active FROM users
    WHERE last_active > datetime('now', '-7 days')] *)
Definition select_active_users (now : Z) (d : db) : Z * db :=
  (Z.of_nat (List.length (nodup Z.eq_dec
     (map telegram_id (filter (fun u => now - seven_days <? last_active u) (users d))))), d).

(** [SELECT platform, COUNT( * ) as clicks FROM clicks
    GROUP BY platform ORDER BY clicks DESC] *)
Definition select_platform_stats (d : db) : list (string * Z) * db :=
  (order_by_desc snd (group_count string_dec (map platform (clicks d))), d).

(** [DATE(clicked_at)] as the number of the day. *)
Definition DATE (t : Z) : Z := t / 86400.

(** [SELECT DATE(clicked_at) as date, COUNT( * ) as clicks FROM clicks
    WHERE clicked_at > datetime('now', '-7 days')
    GROUP BY DATE(clicked_at) ORDER BY date DESC] *)
Definition select_daily_stats (now : Z) (d : db) : list (Z * Z) * db :=
  (order_by_desc fst
     (group_count Z.eq_dec
        (map (fun c => DATE (clicked_at c))
             (filter (fun c => now - seven_days <? clicked_at c) (clicks d)))), d).

(** ** The tracking functions *)

(** [f"{telegram_id}"] *)
Definition str_of_int (z : Z) : string := NilZero.string_of_int (Z.to_int z).

(** [hashlib.md5(f"{telegram_id}{datetime.now().timestamp()}".encode()).hexdigest()[:8]];
    [stamp] is the text Python prints for the float
    [datetime.now().timestamp()]. *)
Definition gen_ref_code (telegram_id : Z) (stamp : string) : string :=
  substring 0 8 (MD5.hexdigest (str_of_int telegram_id ++ stamp)%string).

(** [add_user]: [now] is the instant of [CURRENT_TIMESTAMP].  The value
    returned is [Some ref_code], or [None] for Python's [None].  The two
    integers among the parameters of the INSERT are [telegram_id] and
    [referrer_id]; the latter is whatever number the user typed after
    [/start ref]. *)
Definition add_user (telegram_id : Z) (username first_name last_name : string)
    (referrer_id : option Z) (now : Z) (stamp : string) : M (option string) :=
  finally
    (try_except
       (let ref_code := gen_ref_code telegram_id stamp in
        bind_parameters [Some telegram_id; referrer_id] ;;
        rowcount <- execute (insert_or_ignore_user telegram_id username first_name
                               last_name ref_code referrer_id now) ;;
        (if 0 <? rowcount then logger INFO (NewUser telegram_id username) else ret tt) ;;
        commit ;;
        ret (Some ref_code))
       (fun _ => logger ERROR AddUserFailed ;; ret None))
    close.

(** [update_user_activity] *)
Definition update_user_activity (telegram_id : Z) (now : Z) : M unit :=
  finally
    (try_except
       (execute (update_last_active telegram_id now) ;;
        commit)
       (fun _ => logger ERROR ActivityFailed))
    close.

(** [add_click]: every path returns Python's [None], here [tt]. *)
Definition add_click (telegram_id : Z) (p : string) (course : option Z) (now : Z)
  : M unit :=
  if negb (dict_in p PARTNER_LINKS) then
    logger WARNING (UnknownPlatform p)
  else
    finally
      (try_except
         (user <- execute (select_user_id telegram_id) ;;
          match user with
          | None => logger WARNING (UserNotFound telegram_id)
          | Some user_id =>
              execute (insert_click user_id p course now) ;;
              execute (update_click_counter user_id now) ;;
              commit ;;
              logger INFO (ClickAdded telegram_id p course)
          end)
         (fun _ => logger ERROR ClickFailed))
      close.

(** The dictionary [get_user_stats] returns. *)
Record stats : Type := mk_stats {
  user : user_data;
  platforms_clicks : list (string * Z);
  recent_clicks : list (string * Z)
}.

(** [get_user_stats]: [None] is Python's [None]. *)
Definition get_user_stats (telegram_id : Z) : M (option stats) :=
  finally
    (try_except
       (ud <- execute (select_user_data telegram_id) ;;
        match ud with
        | None => ret None
        | Some user_data =>
            pc <- execute (select_platforms_clicks telegram_id) ;;
            rc <- execute (select_recent_clicks telegram_id) ;;
            ret (Some (mk_stats user_data pc rc))
        end)
       (fun _ => logger ERROR StatsFailed ;; ret None))
    close.

(** What [admin_panel] reads before it renders its message. *)
Record global_stats : Type := mk_global_stats {
  total_users : Z;
  active_users : Z;
  all_clicks : Z;
  platform_stats : list (string * Z);
  daily_stats : list (Z * Z)
}.

(** The store part of [admin_panel]: [admin_id] is [int(os.getenv("ADMIN_ID", "0"))],
    a caller that is not on the list gets no data ([None]).  The queries
    are not guarded by a [try]. *)
Definition admin_panel (admin_id from_user : Z) (now : Z) : M (option global_stats) :=
  if negb (existsb (Z.eqb from_user) [admin_id]) then ret None
  else
    tu <- execute select_total_users ;;
    tc <- execute select_total_clicks ;;
    au <- execute (select_active_users now) ;;
    ps <- execute select_platform_stats ;;
    ds <- execute (select_daily_stats now) ;;
    close ;;
    ret (Some (mk_global_stats tu au tc ps ds)).

(** ** The referral argument of /start *)

(** A string holds the UTF-8 bytes of a Python [str]; [int()] reads its
    code points.  [-1] stands for bytes that encode none. *)
Definition byte_of (c : ascii) : Z := Z.of_nat (nat_of_ascii c).

Definition continuation (x : Z) : bool := (128 <=? x) && (x <? 192).

Definition two_bytes (x1 x2 : Z) : option Z :=
  if (194 <=? x1) && (x1 <? 224) && continuation x2
  then Some ((x1 - 192) * 64 + (x2 - 128))
  else None.

Definition three_bytes (x1 x2 x3 : Z) : option Z :=
  let cp := (x1 - 224) * 4096 + (x2 - 128) * 64 + (x3 - 128) in
  if (224 <=? x1) && (x1 <? 240) && continuation x2 && continuation x3
     && (2048 <=? cp) && negb ((55296 <=? cp) && (cp <? 57344))
  then Some cp
  else None.

Definition four_bytes (x1 x2 x3 x4 : Z) : option Z :=
  let cp := (x1 - 240) * 262144 + (x2 - 128) * 4096 + (x3 - 128) * 64 + (x4 - 128) in
  if (240 <=? x1) && (x1 <? 245) && continuation x2 && continuation x3
     && continuation x4 && (65536 <=? cp) && (cp <? 1114112)
  then Some cp
  else None.

Fixpoint code_points (bs : list ascii) : list Z :=
  match bs with
  | [] => []
  | b1 :: r1 =>
      if byte_of b1 <? 128 then byte_of b1 :: code_points r1
      else
        match r1 with
        | [] => [-1]
        | b2 :: r2 =>
            match two_bytes (byte_of b1) (byte_of b2) with
            | Some cp => cp :: code_points r2
            | None =>
                match r2 with
                | [] => -1 :: code_points r1
                | b3 :: r3 =>
                    match three_bytes (byte_of b1) (byte_of b2) (byte_of b3) with
                    | Some cp => cp :: code_points r3
                    | None =>
                        match r3 with
                        | [] => -1 :: code_points r1
                        | b4 :: r4 =>
                            match four_bytes (byte_of b1) (byte_of b2) (byte_of b3)
                                    (byte_of b4) with
                            | Some cp => cp :: code_points r4
                            | None => -1 :: code_points r1
                            end
                        end
                    end
                end
            end
        end
  end.

(** The code points above ASCII that [str.isspace] accepts (Unicode 14). *)
Definition UNICODE_SPACES : list Z :=
  [133; 160; 5760; 8192; 8193; 8194; 8195; 8196; 8197; 8198; 8199; 8200;
   8201; 8202; 8232; 8233; 8239; 8287; 12288].

(** The digit zero of each script with decimal digits above ASCII
    (Unicode 14); the nine digits that follow it are 1 to 9. *)
Definition UNICODE_ZEROS : list Z :=
  [1632; 1776; 1984; 2406; 2534; 2662; 2790; 2918; 3046; 3174; 3302; 3430;
   3558; 3664; 3792; 3872; 4160; 4240; 6112; 6160; 6470; 6608; 6784; 6800;
   6992; 7088; 7232; 7248; 42528; 43216; 43264; 43472; 43504; 43600; 44016;
   65296; 66720; 68912; 69734; 69872; 69942; 70096; 70384; 70736; 70864;
   71248; 71360; 71472; 71904; 72016; 72784; 73040; 73120; 92768; 92864;
   93008; 120782; 120792; 120802; 120812; 120822; 123200; 123632; 125264;
   130032].

Definition unicode_space (cp : Z) : bool := existsb (Z.eqb cp) UNICODE_SPACES.

Definition unicode_decimal (cp : Z) : option Z :=
  option_map (fun zero => cp - zero)
             (find (fun zero => (zero <=? cp) && (cp <? zero + 10)) UNICODE_ZEROS).

(** What [int()] makes of a code point before it parses: ASCII stays, white
    space above ASCII becomes a blank, a decimal digit of another script the
    ASCII digit of its value, and anything else a character that no number
    contains. *)
Definition to_ascii (cp : Z) : ascii :=
  if (0 <=? cp) && (cp <? 127) then ascii_of_nat (Z.to_nat cp)
  else if unicode_space cp then " "%char
  else
    match unicode_decimal cp with
    | Some v => ascii_of_nat (Z.to_nat (48 + v))
    | None => "?"%char
    end.

(** The characters [int()] skips around a number. *)
Definition is_space (c : ascii) : bool :=
  let n := nat_of_ascii c in
  ((9 <=? n) && (n <=? 13) || (n =? 32))%nat.

Definition is_digit (c : ascii) : bool :=
  let n := nat_of_ascii c in ((48 <=? n) && (n <=? 57))%nat.

Fixpoint lstrip (cs : list ascii) : list ascii :=
  match cs with
  | c :: cs' => if is_space c then lstrip cs' else cs
  | [] => []
  end.

Definition strip (cs : list ascii) : list ascii := rev (lstrip (rev (lstrip cs))).

(** Decimal digits, single underscores allowed between two digits. *)
Fixpoint digits_value (acc : Z) (after_digit : bool) (cs : list ascii) : option Z :=
  match cs with
  | [] => if after_digit then Some acc else None
  | c :: cs' =>
      if is_digit c then
        digits_value (10 * acc + (Z.of_nat (nat_of_ascii c) - 48)) true cs'
      else if Ascii.eqb c "_"%char && after_digit then digits_value acc false cs'
      else None
  end.

(** [sys.get_int_max_str_digits()], as Python sets it. *)
Definition int_max_str_digits : nat := 4300.

(** [int(s)]; [None] stands for [ValueError]. *)
Definition py_int (s : string) : option Z :=
  let cs := strip (map to_ascii (code_points (list_ascii_of_string s))) in
  if (int_max_str_digits <? List.length (filter is_digit cs))%nat then None
  else
    match cs with
    | "-"%char :: ds => option_map Z.opp (digits_value 0 false ds)
    | "+"%char :: ds => digits_value 0 false ds
    | ds => digits_value 0 false ds
    end.

(** The referrer [start_command] reads out of [command.args]. *)
Definition referrer_of_args (args : option string) : option Z :=
  match args with
  | None => None
  | Some a =>
      if (a =? "")%string then None
      else if prefix "ref" a then py_int (substring 3 (String.length a - 3) a)
      else None
  end.

(** [value or default] on a text; the empty text also stands for a name
    that Telegram does not send ([None]). *)
Definition or_else (value default : string) : string :=
  if (value =? "")%string then default else value.

(** The store part of [start_command]: [add_user], whose result is not
    used, then [update_user_activity], each on a connection of its own.
    The three names are those of [message.from_user]. *)
Definition start_command (user_id : Z) (username first_name last_name : string)
    (args : option string) (now : Z) (stamp : string) (d : db) : db :=
  let username := or_else username "" in
  let first_name := or_else first_name "Пользователь" in
  let last_name := or_else last_name "" in
  let referrer_id := referrer_of_args args in
  let d1 := store_of (run (add_user user_id username first_name last_name
                             referrer_id now stamp) None d) in
  store_of (run (update_user_activity user_id now) None d1).

(** ** Consistency of a store

    What the PRIMARY KEY and UNIQUE constraints of [init_db] maintain. *)
Definition wf (d : db) : Prop :=
  NoDup (map u_id (users d)) /\
  NoDup (map telegram_id (users d)) /\
  NoDup (map ref_code (users d)).

Definition registered (tid : Z) (d : db) : Prop :=
  In tid (map telegram_id (users d)).

(** One first-time registration of a batch: who registers and when. *)
Record registration : Type := mk_registration {
  r_telegram_id : Z;
  r_username : string;
  r_first_name : string;
  r_last_name : string;
  r_referrer_id : option Z;
  r_now : Z;
  r_stamp : string
}.


(** [add_user] for each registration in turn, on a store that works;
    the codes returned, in order, and the store left. *)
Fixpoint register_all (rs : list registration) (d : db) : list (option string) * db :=
  match rs with
  | [] => ([], d)
  | r :: rs' =>
      let x := run (add_user (r_telegram_id r) (r_username r) (r_first_name r)
                      (r_last_name r) (r_referrer_id r) (r_now r) (r_stamp r)) None d in
      let '(codes, d') := register_all rs' (store_of x) in
      (match result_of x with Returned c => c | Raised _ => None end :: codes, d')
  end.

(** ** Vocabulary of the statements *)

(** The injected fault falls on one of the first [n] store calls. *)
Definition hits (f : option nat) (n : nat) : bool :=
  match f with
  | Some k => (k <? n)%nat
  | None => false
  end.

(** [add_user] gets as far as its [return ref_code]: its two integers fit
    an SQLite INTEGER and neither its INSERT nor its commit fails. *)
Definition add_user_runs (tid : Z) (referrer : option Z) (f : option nat) : bool :=
  int64 tid && binds referrer && negb (hits f 2).


(** [ORDER BY key DESC] as a relation between neighbours. *)
Definition desc {A : Type} (key : A -> Z) (x y : A) : Prop := key y <= key x.

(** The user rows with a given telegram id. *)
Definition rows_of (tid : Z) (d : db) : list user_row :=
  filter (fun u => telegram_id u =? tid) (users d).

(** The clicks of the ledger that belong to the user row [u]. *)
Definition clicks_of (u : user_row) (d : db) : list click_row :=
  filter (fun c => c_user_id c =? u_id u) (clicks d).

(** The telegram ids that the active-users query of [admin_panel] counts. *)
Definition counted_active (now : Z) (d : db) : list Z :=
  nodup Z.eq_dec
    (map telegram_id (filter (fun u => now - seven_days <? last_active u) (users d))).

(** The stores the bot reaches from a fresh [init_db] through the tracking
    functions, whatever statement or commit fails on the way. *)
Inductive reachable : db -> Prop :=
| reach_init : reachable (init_db None)
| reach_add_user d tid un fn ln r now stamp f :
    reachable d ->
    reachable (store_of (run (add_user tid un fn ln r now stamp) f d))
| reach_update_user_activity d tid now f :
    reachable d ->
    reachable (store_of (run (update_user_activity tid now) f d))
| reach_add_click d tid p course now f :
    reachable d ->
    reachable (store_of (run (add_click tid p course now) f d))
| reach_get_user_stats d tid f :
    reachable d ->
    reachable (store_of (run (get_user_stats tid) f d)).

(** Every click belongs to a user row, and [clicks_count] is the number of
    clicks the ledger holds for the row. *)
Definition ledger_consistent (d : db) : Prop :=
  (forall c, In c (clicks d) -> In (c_user_id c) (map u_id (users d))) /\
  (forall u, In u (users d) -> clicks_count u = Z.of_nat (List.length (clicks_of u d))).

(** Every click of the ledger is on a platform of [PARTNER_LINKS]. *)
Definition platforms_known (d : db) : Prop :=
  forall c, In c (clicks d) -> dict_in (platform c) PARTNER_LINKS = true.

(** Stores used as concrete inputs: one registered user, then three clicks. *)
Definition store_bob : db :=
  store_of (run (add_user 42 "bob" "Bob" "" (Some 999) 1700000000 "1700000000.25")
                None empty_db).

Definition store_bob_clicks : db :=
  let d1 := store_of (run (add_click 42 "skillbox" (Some 5) 1700000010) None store_bob) in
  let d2 := store_of (run (add_click 42 "skillbox" (Some 2) 1700000011) None d1) in
  store_of (run (add_click 42 "geekbrains" (Some 3) 1700000012) None d2).

(** Two users: one registered eight days before the other. *)
Definition store_two_users : db :=
  let d1 := store_of (run (add_user 1 "old" "Old" "" None 1700000000 "1700000000.5")
                          None empty_db) in
  store_of (run (add_user 2 "new" "New" "" None 1700691200 "1700691200.5") None d1).


(** Three first-time registrations with distinct codes. *)
Definition three_registrations : list registration :=
  [mk_registration 101 "a" "A" "" None 1700000000 "1700000000.5";
   mk_registration 102 "b" "B" "" (Some 101) 1700000001 "1700000001.5";
   mk_registration 103 "c" "C" "" (Some 7) 1700000002 "1700000002.5"].

(** ** The catalogue and the display tables *)

Definition PLATFORM_NAMES : list (string * string) :=
  [("skillbox", "Skillbox 🎓");
   ("skillfactory", "SkillFactory 🚀");
   ("geekbrains", "GeekBrains 👨‍💻")].

Definition COMMISSIONS : list (string * string) :=
  [("skillbox", "20-40%");
   ("skillfactory", "20-35%");
   ("geekbrains", "15-30%")].

(** An entry of [COURSES_DATA]. *)
Record course : Type := mk_course {
  co_id : Z;
  co_title : string;
  co_platform : string;
  co_description : string;
  co_duration : string;
  co_price : string;
  co_skills : list string;
  co_rating : string;
  co_comment : string
}.

(** The dictionary from category to courses, in the order it is written. *)
Definition COURSES_DATA : list (string * list course) :=
  [
   ("programming",
    [
     mk_course 1
       "Python-разработчик с нуля"
       "skillfactory"
       "Освойте Python, Django, PostgreSQL и Docker. Станьте junior-разработчиком за 12 месяцев."
       "12 месяцев"
       "от 5,900 ₽/мес"
       ["Python"; "Django"; "PostgreSQL"; "Docker"; "REST API"]
       "4.8/5"
       "Самый популярный курс по Python. Отличная поддержка и реальные проекты.";
     mk_course 2
       "Fullstack-разработчик на JavaScript"
       "skillbox"
       "Научитесь создавать веб-приложения с нуля. React, Node.js, MongoDB и облачные технологии."
       "18 месяцев"
       "от 6,500 ₽/мес"
       ["JavaScript"; "React"; "Node.js"; "MongoDB"; "Docker"]
       "4.7/5"
       "Идеально для карьеры fullstack-разработчика. Современный стек технологий.";
     mk_course 3
       "Java-разработчик PRO"
       "geekbrains"
       "Профессия Java-разработчик с гарантией трудоустройства. Spring, Hibernate, микросервисы."
       "14 месяцев"
       "от 7,000 ₽/мес"
       ["Java"; "Spring Boot"; "Hibernate"; "Kafka"; "Docker"]
       "4.6/5"
       "Лучший выбор для enterprise-разработки. Сильное комьюнити.";
     mk_course 4
       "Разработчик на C# и .NET"
       "skillbox"
       "Освойте разработку на C# для Windows, веба и игр. Unity, ASP.NET Core, Entity Framework."
       "10 месяцев"
       "от 5,500 ₽/мес"
       ["C#"; ".NET Core"; "ASP.NET"; "SQL Server"; "Unity"]
       "4.5/5"
       "Отличный курс для разработки под экосистему Microsoft."
    ]);
   ("design",
    [
     mk_course 5
       "UX/UI-дизайнер с нуля до PRO"
       "skillbox"
       "Научитесь создавать современные интерфейсы для сайтов и приложений. Figma, Adobe XD, Tilda."
       "12 месяцев"
       "от 5,000 ₽/мес"
       ["Figma"; "UI/UX"; "Прототипирование"; "User Research"; "Design Systems"]
       "4.9/5"
       "Лучший курс по дизайну интерфейсов. Много реальных кейсов.";
     mk_course 6
       "Графический дизайн и брендинг"
       "skillfactory"
       "Освойте Adobe Photoshop, Illustrator и создавайте профессиональный дизайн для брендов."
       "8 месяцев"
       "от 4,500 ₽/мес"
       ["Photoshop"; "Illustrator"; "Брендинг"; "Верстка"; "Typography"]
       "4.7/5"
       "Практический курс с фокусом на коммерческий дизайн."
    ]);
   ("marketing",
    [
     mk_course 7
       "Digital-маркетолог от А до Я"
       "geekbrains"
       "Полный курс по интернет-маркетингу: SMM, SEO, контекстная реклама, аналитика и стратегия."
       "10 месяцев"
       "от 5,800 ₽/мес"
       ["SMM"; "SEO"; "Google Ads"; "Analytics"; "Content Marketing"]
       "4.8/5"
       "Комплексный подход к digital-маркетингу. Актуальные инструменты 2024.";
     mk_course 8
       "SMM-специалист PRO"
       "skillbox"
       "Научитесь продвигать бренды в соцсетях. Instagram, VK, YouTube, Telegram, TikTok."
       "7 месяцев"
       "от 4,800 ₽/мес"
       ["Instagram"; "TikTok"; "YouTube"; "Таргетинг"; "Content Plan"]
       "4.6/5"
       "Практический курс с упором на монетизацию."
    ]);
   ("analytics",
    [
     mk_course 9
       "Data Science и Machine Learning"
       "skillfactory"
       "Станьте data scientist. Python для анализа данных, машинное обучение, нейросети и SQL."
       "16 месяцев"
       "от 7,200 ₽/мес"
       ["Python"; "Pandas"; "ML"; "SQL"; "Tableau"; "Deep Learning"]
       "4.9/5"
       "Самый глубокий курс по Data Science на русском языке.";
     mk_course 10
       "Аналитик данных с нуля"
       "geekbrains"
       "Освойте SQL, Excel, Python и BI-системы. Научитесь принимать решения на основе данных."
       "9 месяцев"
       "от 5,500 ₽/мес"
       ["SQL"; "Excel"; "Python"; "Tableau"; "Statistics"; "Power BI"]
       "4.7/5"
       "Отличный старт в аналитике. Много практических заданий."
    ])
  ].

(** [dict.get(key, default)] *)
Fixpoint dict_get {V : Type} (key : string) (dict : list (string * V)) (default : V) : V :=
  match dict with
  | [] => default
  | (k, v) :: rest => if String.eqb key k then v else dict_get key rest default
  end.

(** The newline of the message templates. *)
Definition nl : string := String (ascii_of_nat 10) EmptyString.

(** [s.split(sep)] for a separator of one character. *)
Fixpoint str_split (sep : ascii) (s : string) : list string :=
  match s with
  | EmptyString => [EmptyString]
  | String c s' =>
      if Ascii.eqb c sep then EmptyString :: str_split sep s'
      else
        match str_split sep s' with
        | part :: parts => String c part :: parts
        | [] => [String c EmptyString]
        end
  end.

(** ** The handlers

    A handler is the function from the update it gets and the store to the
    store it leaves and the reply it sends, on a store that works.  A reply
    keeps the values its message is rendered from and the keyboard. *)

Inductive button : Type :=
| CallbackButton (text callback_data : string)
| UrlButton (text url : string).

Definition keyboard : Type := list (list button).

(** [f"course_{course['id']}"] *)
Definition course_callback (c : course) : string :=
  ("course_" ++ str_of_int (co_id c))%string.

Inductive category_reply : Type :=
| CategoryUnavailable
| CategoryList (text : string) (kb : keyboard).

(** [show_category] *)
Definition show_category (from_user : Z) (category title : string) (now : Z) (d : db)
  : db * category_reply :=
  let d' := store_of (run (update_user_activity from_user now) None d) in
  let courses := dict_get category COURSES_DATA [] in
  match courses with
  | [] => (d', CategoryUnavailable)
  | _ =>
      (d', CategoryList
             (title ++ nl ++ nl ++ "<i>Выберите курс для подробной информации:</i>")%string
             (map (fun c =>
                     [CallbackButton
                        (co_title c ++ " (" ++
                         dict_get (co_platform c) PLATFORM_NAMES (co_platform c) ++ ")")%string
                        (course_callback c)]) courses
              ++ [[CallbackButton "🔙 Назад в меню" "menu_back"]]))
  end.

(** [int(callback.data.split("_")[1])]; [None] stands for the ValueError
    and the IndexError that [show_course_detail] catches together. *)
Definition parse_course_id (data : string) : option Z :=
  match nth_error (str_split "_" data) 1 with
  | Some s => py_int s
  | None => None
  end.

(** The two loops of [show_course_detail]: the first course with the id,
    category by category. *)
Fixpoint find_course (categories : list (string * list course)) (course_id : Z)
  : option course :=
  match categories with
  | [] => None
  | (_, category) :: rest =>
      match find (fun c => co_id c =? course_id) category with
      | Some c => Some c
      | None => find_course rest course_id
      end
  end.

Inductive course_reply : Type :=
| CourseLoadError
| CourseNotFound
| CourseCard (c : course) (platform_name commission partner_link : string) (kb : keyboard).

(** [show_course_detail] *)
Definition show_course_detail (from_user : Z) (data : string) (now : Z) (d : db)
  : db * course_reply :=
  match parse_course_id data with
  | None => (d, CourseLoadError)
  | Some course_id =>
      match find_course COURSES_DATA course_id with
      | None => (d, CourseNotFound)
      | Some c =>
          let d1 := store_of (run (update_user_activity from_user now) None d) in
          let d2 := store_of (run (add_click from_user (co_platform c) (Some course_id) now)
                                  None d1) in
          let p := co_platform c in
          let partner_link := dict_get p PARTNER_LINKS "#" in
          (d2, CourseCard c (dict_get p PLATFORM_NAMES p) (dict_get p COMMISSIONS "15-30%")
                 partner_link
                 [[UrlButton "🌐 Перейти на сайт курса" partner_link];
                  [CallbackButton "📋 Похожие курсы" ("similar_" ++ p)%string];
                  [CallbackButton "🔙 Назад к категориям" "category_back";
                   CallbackButton "🏠 В меню" "menu_back"]])
      end
  end.

Inductive similar_reply : Type :=
| PlatformNotFound
| SimilarNotFound
| SimilarList (text : string) (kb : keyboard).

(** [show_similar_courses]; [None] stands for the IndexError of
    [callback.data.split("_")[1]], which the handler does not catch.  The
    handler does not touch the store. *)
Definition show_similar_courses (data : string) : option similar_reply :=
  match nth_error (str_split "_" data) 1 with
  | None => None
  | Some p =>
      Some
        (if negb (dict_in p PARTNER_LINKS) then PlatformNotFound
         else
           let similar_courses :=
             filter (fun c => String.eqb (co_platform c) p) (flat_map snd COURSES_DATA) in
           match similar_courses with
           | [] => SimilarNotFound
           | _ =>
               SimilarList
                 ("<b>Другие курсы на " ++ dict_get p PLATFORM_NAMES p ++ ":</b>"
                  ++ nl ++ nl)%string
                 (map (fun c => [CallbackButton (co_title c) (course_callback c)])
                      (firstn 5 similar_courses)
                  ++ [[CallbackButton "🔙 Назад" "menu_back"]])
           end)
  end.

(** What [my_stats] shows: nothing yet, or the user's card.  [registered]
    stands for [registered_at[:10]], the day of the registration. *)
Inductive stats_reply : Type :=
| NoActivityYet
| StatsCard (first_name : string) (registered : Z) (ref_code : string)
            (clicks : Z) (active_platforms : Z) (lines : list (string * Z))
            (invited_by : option Z).

(** [my_stats] *)
Definition my_stats (user_id now : Z) (d : db) : db * stats_reply :=
  let d1 := store_of (run (update_user_activity user_id now) None d) in
  match result_of (run (get_user_stats user_id) None d1) with
  | Returned (Some stats) =>
      let user_data := ud_row (user stats) in
      let platforms := platforms_clicks stats in
      (d1, StatsCard (first_name user_data) (DATE (registered_at user_data))
             (ref_code user_data) (clicks_count user_data)
             (Z.of_nat (List.length platforms))
             (map (fun pc => (dict_get (fst pc) PLATFORM_NAMES (fst pc), snd pc)) platforms)
             (match referrer_id user_data with
              | Some r => if r =? 0 then None else Some r
              | None => None
              end))
  | _ => (d1, NoActivityYet)
  end.

(** [f"https://t.me/{bot_username}?start=ref{user_id}"] of [show_ref_link]
    and [partner_program]. *)
Definition ref_link (bot_username : string) (user_id : Z) : string :=
  ("https://t.me/" ++ bot_username ++ "?start=ref" ++ str_of_int user_id)%string.

(** [partner_program]: the link and the code it shows. *)
Definition partner_program (user_id now : Z) (bot_username : string) (d : db)
  : db * (string * string) :=
  let d1 := store_of (run (update_user_activity user_id now) None d) in
  let ref_code :=
    match result_of (run (get_user_stats user_id) None d1) with
    | Returned (Some stats) => ref_code (ud_row (user stats))
    | _ => "Ошибка"
    end in
  (d1, (ref_link bot_username user_id, ref_code)).

(** A character of [hexdigest()]. *)
Definition is_hex_char (c : ascii) : bool :=
  let n := nat_of_ascii c in
  ((48 <=? n) && (n <=? 57) || (97 <=? n) && (n <=? 102))%nat.

(** [c in s] for a character. *)
Definition has_char (c : ascii) (s : string) : bool :=
  existsb (Ascii.eqb c) (list_ascii_of_string s).

(** [sum(...)] of the counts of a breakdown. *)
Definition sum_counts {A : Type} (l : list (A * Z)) : Z :=
  fold_right Z.add 0 (map snd l).

(** ** The digest agrees with hashlib on test vectors *)

Example md5_empty : MD5.hexdigest "" = "d41d8cd98f00b204e9800998ecf8427e".
Proof. vm_compute. reflexivity. Qed.

Example md5_abc : MD5.hexdigest "abc" = "900150983cd24fb0d6963f7d28e17f72".
Proof. vm_compute. reflexivity. Qed.

Example md5_two_blocks :
  MD5.hexdigest "aaaaaaaaaaaaaaaaaaaaaaaaaaaaaaaaaaaaaaaaaaaaaaaaaaaaaaaaaaaaaaaaaaaaaa"
  = "0f5c6c4e740bfcc08c3c26ccb2673d46".
Proof. vm_compute. reflexivity. Qed.

Example ref_code_bob : gen_ref_code 42 "1700000000.25" = "b6bae945".
Proof. vm_compute. reflexivity. Qed.

(** ** List facts *)

Section ListFacts.
Context {A B : Type}.

Lemma NoDup_map_eq (f : A -> B) (l : list A) (a b : A) :
  NoDup (map f l) -> In a l -> In b l -> f a = f b -> a = b.
Proof.
  induction l as [|x l IH]; simpl; [tauto|].
  intros Hnd Ha Hb Heq. inversion Hnd as [|? ? Hx Hl]; subst.
  destruct Ha as [-> | Ha], Hb as [-> | Hb]; auto.
  - exfalso. apply Hx. rewrite Heq. now apply in_map.
  - exfalso. apply Hx. rewrite <- Heq. now apply in_map.
Qed.

Lemma filter_nil_iff (p : A -> bool) (l : list A) :
  (forall x, In x l -> p x = false) -> filter p l = [].
Proof.
  induction l as [|x l IH]; simpl; intros H; [reflexivity|].
  rewrite (H x) by auto. apply IH. intros; apply H; auto.
Qed.

Lemma map_if_same (p : A -> bool) (g : A -> A) (l : list A) :
  (forall x, In x l -> p x = false) -> map (fun x => if p x then g x else x) l = l.
Proof.
  induction l as [|x l IH]; simpl; intros H; [reflexivity|].
  rewrite (H x) by auto. f_equal. apply IH. intros; apply H; auto.
Qed.
End ListFacts.

Lemma find_by_key (l : list user_row) (key : user_row -> Z) (u : user_row) :
  NoDup (map key l) -> In u l ->
  find (fun v => key v =? key u) l = Some u.
Proof.
  induction l as [|x l IH]; simpl; [tauto|].
  intros Hnd Hin. inversion Hnd as [|? ? Hx Hl]; subst.
  destruct Hin as [-> | Hin].
  - now rewrite Z.eqb_refl.
  - destruct (key x =? key u) eqn:E.
    + apply Z.eqb_eq in E. exfalso. apply Hx. rewrite E. now apply in_map.
    + auto.
Qed.

Lemma filter_by_key (l : list user_row) (key : user_row -> Z) (u : user_row) :
  NoDup (map key l) -> In u l ->
  filter (fun v => key v =? key u) l = [u].
Proof.
  induction l as [|x l IH]; simpl; [tauto|].
  intros Hnd Hin. inversion Hnd as [|? ? Hx Hl]; subst.
  destruct Hin as [-> | Hin].
  - rewrite Z.eqb_refl. f_equal. apply filter_nil_iff.
    intros v Hv. apply Z.eqb_neq. intros E. apply Hx. rewrite <- E. now apply in_map.
  - destruct (key x =? key u) eqn:E.
    + apply Z.eqb_eq in E. exfalso. apply Hx. rewrite E. now apply in_map.
    + auto.
Qed.

Lemma find_none_unregistered (tid : Z) (l : list user_row) :
  ~ In tid (map telegram_id l) ->
  find (fun v => telegram_id v =? tid) l = None.
Proof.
  induction l as [|x l IH]; simpl; [reflexivity|].
  intros H. destruct (telegram_id x =? tid) eqn:E.
  - apply Z.eqb_eq in E. tauto.
  - apply IH. tauto.
Qed.

Lemma tid_test_false (tid : Z) (l : list user_row) :
  ~ In tid (map telegram_id l) ->
  forall v, In v l -> (telegram_id v =? tid) = false.
Proof.
  intros H v Hv. apply Z.eqb_neq. intros E. apply H. rewrite <- E. now apply in_map.
Qed.

(** ** What a call leaves, fault by fault *)

Ltac run_unfold :=
  unfold run, result_of, store_of, log_of, get_db_connection, finally, try_except,
    bind, bind_parameters, execute, commit, close, logger, ret, fails, tick.

Lemma add_user_result tid un fn ln r now stamp f d :
  result_of (run (add_user tid un fn ln r now stamp) f d) =
  Returned (if add_user_runs tid r f then Some (gen_ref_code tid stamp) else None).
Proof.
  unfold add_user, add_user_runs. run_unfold. cbn [forallb binds]. rewrite andb_true_r.
  destruct (int64 tid && binds r); [|reflexivity].
  destruct f as [[|[|k]]|]; simpl; try reflexivity.
  all: destruct (insert_or_ignore_user _ _ _ _ _ _ _ _) as [rc d'];
    destruct (0 <? rc); reflexivity.
Qed.

Lemma add_user_store tid un fn ln r now stamp f d :
  store_of (run (add_user tid un fn ln r now stamp) f d) =
  if add_user_runs tid r f
  then snd (insert_or_ignore_user tid un fn ln (gen_ref_code tid stamp) r now d)
  else d.
Proof.
  unfold add_user, add_user_runs. run_unfold. cbn [forallb binds]. rewrite andb_true_r.
  destruct (int64 tid && binds r); [|reflexivity].
  destruct f as [[|[|k]]|]; simpl; try reflexivity.
  all: destruct (insert_or_ignore_user _ _ _ _ _ _ _ _) as [rc d'];
    destruct (0 <? rc); reflexivity.
Qed.


Lemma update_user_activity_result tid now f d :
  result_of (run (update_user_activity tid now) f d) = Returned tt.
Proof.
  unfold update_user_activity. run_unfold.
  destruct f as [[|[|k]]|]; reflexivity.
Qed.

Lemma update_user_activity_store tid now f d :
  store_of (run (update_user_activity tid now) f d) =
  if hits f 2 then d else snd (update_last_active tid now d).
Proof.
  unfold update_user_activity. run_unfold.
  destruct f as [[|[|k]]|]; reflexivity.
Qed.

Lemma add_click_result tid p course now f d :
  result_of (run (add_click tid p course now) f d) = Returned tt.
Proof.
  unfold add_click. destruct (dict_in p PARTNER_LINKS); simpl; [|reflexivity].
  run_unfold. unfold select_user_id.
  destruct f as [[|[|[|[|k]]]]|]; simpl; try reflexivity.
  all: destruct (find _ (users d)); reflexivity.
Qed.

Lemma add_click_store tid p course now f d :
  store_of (run (add_click tid p course now) f d) =
  if dict_in p PARTNER_LINKS then
    match fst (select_user_id tid d) with
    | None => d
    | Some user_id =>
        if hits f 4 then d
        else snd (update_click_counter user_id now
                    (snd (insert_click user_id p course now d)))
    end
  else d.
Proof.
  unfold add_click. destruct (dict_in p PARTNER_LINKS); simpl; [|reflexivity].
  run_unfold. unfold select_user_id.
  destruct f as [[|[|[|[|k]]]]|]; simpl.
  all: destruct (find _ (users d)); reflexivity.
Qed.

Lemma get_user_stats_result tid f d :
  result_of (run (get_user_stats tid) f d) =
  Returned
    (match fst (select_user_data tid d) with
     | None => None
     | Some ud =>
         if hits f 3 then None
         else Some (mk_stats ud (fst (select_platforms_clicks tid d))
                             (fst (select_recent_clicks tid d)))
     end).
Proof.
  unfold get_user_stats. run_unfold. unfold select_user_data.
  destruct f as [[|[|[|k]]]|]; simpl; try reflexivity.
  all: destruct (filter _ (users d)); reflexivity.
Qed.

Lemma get_user_stats_store tid f d :
  store_of (run (get_user_stats tid) f d) = d.
Proof.
  unfold get_user_stats. run_unfold. unfold select_user_data.
  destruct f as [[|[|[|k]]]|]; simpl; try reflexivity.
  all: destruct (filter _ (users d)); reflexivity.
Qed.

Lemma update_user_activity_log tid now f d :
  log_of (run (update_user_activity tid now) f d) =
  if hits f 2 then [(ERROR, ActivityFailed)] else [].
Proof.
  unfold update_user_activity. run_unfold.
  destruct f as [[|[|k]]|]; reflexivity.
Qed.

Lemma add_click_log_unknown_platform tid p course now f d :
  dict_in p PARTNER_LINKS = false ->
  log_of (run (add_click tid p course now) f d) = [(WARNING, UnknownPlatform p)].
Proof.
  intros H. unfold add_click. rewrite H. reflexivity.
Qed.

Lemma add_click_log_unknown_user tid p course now f d :
  dict_in p PARTNER_LINKS = true ->
  ~ registered tid d ->
  log_of (run (add_click tid p course now) f d) =
  if hits f 1 then [(ERROR, ClickFailed)] else [(WARNING, UserNotFound tid)].
Proof.
  intros H Hreg. unfold add_click. rewrite H. simpl.
  run_unfold. unfold select_user_id.
  destruct f as [[|k]|]; simpl; try reflexivity.
  all: rewrite (find_none_unregistered tid (users d) Hreg); reflexivity.
Qed.

(** ** The constraints of the schema are kept *)

Lemma next_rowid_fresh (seq : Z) (ids : list Z) :
  ~ In (next_rowid seq ids) ids.
Proof.
  unfold next_rowid. intros H.
  assert (Hle : forall i, In i ids -> i <= fold_right Z.max 0 ids).
  { clear H. induction ids as [|j ids IH]; simpl; [tauto|].
    intros i [-> | Hi]; [lia|]. specialize (IH i Hi). lia. }
  specialize (Hle _ H). lia.
Qed.

Lemma NoDup_snoc {A : Type} (l : list A) (x : A) :
  NoDup l -> ~ In x l -> NoDup (l ++ [x]).
Proof.
  intros Hl Hx. apply (Permutation_NoDup (l := x :: l)).
  - apply Permutation_cons_append.
  - now constructor.
Qed.

Lemma map_key_update {K : Type} (key : user_row -> K) (p : user_row -> bool)
    (g : user_row -> user_row) (l : list user_row) :
  (forall u, key (g u) = key u) ->
  map key (map (fun u => if p u then g u else u) l) = map key l.
Proof.
  intros Hk. rewrite map_map. apply map_ext. intros u. now destruct (p u).
Qed.

Lemma existsb_unique_false tid code (l : list user_row) :
  existsb (fun u => (telegram_id u =? tid) || String.eqb (ref_code u) code) l = false ->
  ~ In tid (map telegram_id l) /\ ~ In code (map ref_code l).
Proof.
  induction l as [|x l IH]; simpl; [tauto|].
  intros H. apply orb_false_iff in H as [H1 H2].
  apply orb_false_iff in H1 as [Ht Hc].
  apply Z.eqb_neq in Ht. apply String.eqb_neq in Hc.
  destruct (IH H2). tauto.
Qed.

Lemma existsb_unique_fresh tid code (l : list user_row) :
  ~ In tid (map telegram_id l) -> ~ In code (map ref_code l) ->
  existsb (fun u => (telegram_id u =? tid) || String.eqb (ref_code u) code) l = false.
Proof.
  induction l as [|x l IH]; simpl; [reflexivity|].
  intros Ht Hc. rewrite IH by tauto.
  assert (E1 : (telegram_id x =? tid) = false) by (apply Z.eqb_neq; tauto).
  assert (E2 : String.eqb (ref_code x) code = false) by (apply String.eqb_neq; tauto).
  now rewrite E1, E2.
Qed.

Lemma existsb_unique_registered tid code (l : list user_row) :
  In tid (map telegram_id l) ->
  existsb (fun u => (telegram_id u =? tid) || String.eqb (ref_code u) code) l = true.
Proof.
  intros H. apply in_map_iff in H as (u & Hu & Hin).
  apply existsb_exists. exists u. split; [assumption|].
  apply orb_true_iff. left. now apply Z.eqb_eq.
Qed.

Lemma wf_empty : wf empty_db.
Proof. repeat split; constructor. Qed.

Lemma wf_insert_or_ignore_user tid un fn ln code r now d :
  wf d -> wf (snd (insert_or_ignore_user tid un fn ln code r now d)).
Proof.
  intros (Hi & Ht & Hc). unfold insert_or_ignore_user. cbv zeta.
  destruct (existsb _ (users d)) eqn:E; simpl; [now repeat split|].
  apply existsb_unique_false in E as [Htid Hcode].
  unfold wf; simpl. rewrite !map_app; simpl.
  repeat split; apply NoDup_snoc; auto using next_rowid_fresh.
Qed.

Lemma wf_update_last_active tid now d :
  wf d -> wf (snd (update_last_active tid now d)).
Proof.
  intros (Hi & Ht & Hc). unfold wf, update_last_active; simpl.
  rewrite !map_key_update by reflexivity. now repeat split.
Qed.

Lemma wf_insert_click uid p course now d :
  wf d -> wf (snd (insert_click uid p course now d)).
Proof. intros H. exact H. Qed.

Lemma wf_update_click_counter uid now d :
  wf d -> wf (snd (update_click_counter uid now d)).
Proof.
  intros (Hi & Ht & Hc). unfold wf, update_click_counter; simpl.
  rewrite !map_key_update by reflexivity. now repeat split.
Qed.

Lemma wf_add_user tid un fn ln r now stamp f d :
  wf d -> wf (store_of (run (add_user tid un fn ln r now stamp) f d)).
Proof.
  intros H. rewrite add_user_store.
  destruct (add_user_runs tid r f); auto using wf_insert_or_ignore_user.
Qed.

Lemma wf_update_user_activity tid now f d :
  wf d -> wf (store_of (run (update_user_activity tid now) f d)).
Proof.
  intros H. rewrite update_user_activity_store.
  destruct (hits f 2); auto using wf_update_last_active.
Qed.

Lemma wf_add_click tid p course now f d :
  wf d -> wf (store_of (run (add_click tid p course now) f d)).
Proof.
  intros H. rewrite add_click_store.
  destruct (dict_in p PARTNER_LINKS); [|assumption].
  destruct (fst (select_user_id tid d)); [|assumption].
  destruct (hits f 4); auto using wf_update_click_counter, wf_insert_click.
Qed.

Lemma wf_store_bob : wf store_bob.
Proof. apply wf_add_user, wf_empty. Qed.

Lemma wf_store_bob_clicks : wf store_bob_clicks.
Proof. unfold store_bob_clicks. repeat apply wf_add_click. apply wf_store_bob. Qed.

(** ** Rows, keys and joins of a consistent store *)

Lemma same_row_tests d u v :
  wf d -> In u (users d) -> In v (users d) ->
  (u_id v =? u_id u) = (telegram_id v =? telegram_id u).
Proof.
  intros (Hi & Ht & _) Hu Hv.
  destruct (u_id v =? u_id u) eqn:E1, (telegram_id v =? telegram_id u) eqn:E2;
    try reflexivity.
  - apply Z.eqb_eq in E1. apply Z.eqb_neq in E2.
    rewrite (NoDup_map_eq u_id _ _ _ Hi Hv Hu E1) in E2. congruence.
  - apply Z.eqb_eq in E2. apply Z.eqb_neq in E1.
    rewrite (NoDup_map_eq telegram_id _ _ _ Ht Hv Hu E2) in E1. congruence.
Qed.

Lemma users_join_filter (l : list user_row) (u : user_row) (k : Z) :
  NoDup (map telegram_id l) -> In u l ->
  filter (fun v => (u_id v =? k) && (telegram_id v =? telegram_id u)) l =
  if u_id u =? k then [u] else [].
Proof.
  induction l as [|x l IH]; simpl; [tauto|].
  intros Hnd Hin. inversion Hnd as [|? ? Hx Hl]; subst.
  destruct Hin as [-> | Hin].
  - rewrite Z.eqb_refl, andb_true_r.
    rewrite (filter_nil_iff _ l).
    + now destruct (u_id u =? k).
    + intros v Hv. rewrite (tid_test_false _ _ Hx v Hv). apply andb_false_r.
  - assert (E : (telegram_id x =? telegram_id u) = false).
    { apply Z.eqb_neq. intros E. apply Hx. rewrite E. now apply in_map. }
    rewrite E, andb_false_r. auto.
Qed.

Lemma clicks_joined_registered d u :
  wf d -> In u (users d) ->
  clicks_joined (telegram_id u) d = clicks_of u d.
Proof.
  intros (_ & Ht & _) Hu. unfold clicks_joined, clicks_of.
  induction (clicks d) as [|c cs IH]; simpl; [reflexivity|].
  rewrite (users_join_filter _ u (c_user_id c) Ht Hu), IH.
  rewrite (Z.eqb_sym (c_user_id c)). now destruct (u_id u =? c_user_id c).
Qed.

Lemma clicks_joined_unregistered tid d :
  ~ registered tid d -> clicks_joined tid d = [].
Proof.
  intros H. unfold clicks_joined.
  induction (clicks d) as [|c cs IH]; simpl; [reflexivity|].
  rewrite IH, app_nil_r, filter_nil_iff; [reflexivity|].
  intros v Hv. rewrite (tid_test_false _ _ H v Hv). apply andb_false_r.
Qed.

(** ** The click ledger: [add_click] *)

(** C1.  For a registered user and a platform of [PARTNER_LINKS], a call of
    [add_click] on which no statement and no commit fails returns, appends
    exactly one row to the ledger, owned by the user's row, adds exactly 1
    to the user's [clicks_count] and sets the user's [last_active] to now,
    leaving every other row as it was.  If the select, the insert, the update or the
    commit fails, the call still returns and the committed store is the one
    before the call: no row, no increment, no refreshed activity. *)
Theorem add_click_atomic :
  forall (d : db) (u : user_row) (p : string) (course : option Z) (now : Z)
         (f : option nat),
    wf d -> In u (users d) -> dict_in p PARTNER_LINKS = true ->
    let x := run (add_click (telegram_id u) p course now) f d in
    let row := mk_click (next_rowid (seq_clicks d) (map c_id (clicks d)))
                        (u_id u) p course now in
    result_of x = Returned tt /\
    (hits f 4 = false ->
       clicks (store_of x) = clicks d ++ [row] /\
       clicks_of u (store_of x) = clicks_of u d ++ [row] /\
       users (store_of x) =
         map (fun v => if telegram_id v =? telegram_id u then count_click now v else v)
             (users d) /\
       In (count_click now u) (users (store_of x)) /\
       clicks_count (count_click now u) = clicks_count u + 1 /\
       last_active (count_click now u) = now) /\
    (hits f 4 = true -> store_of x = d).
Proof.
  intros d u p course now f Hwf Hu Hp x row. subst x.
  rewrite add_click_result, add_click_store, Hp.
  destruct Hwf as (Hi & Ht & Hc).
  unfold select_user_id; simpl fst.
  rewrite (find_by_key _ telegram_id u Ht Hu); simpl option_map; cbv iota.
  split; [reflexivity|].
  destruct (hits f 4); split; intros E; try discriminate; try reflexivity.
  assert (Hmap : map (fun v => if u_id v =? u_id u then count_click now v else v) (users d)
                 = map (fun v => if telegram_id v =? telegram_id u
                                 then count_click now v else v) (users d)).
  { apply map_ext_in. intros v Hv.
    now rewrite (same_row_tests d u v (conj Hi (conj Ht Hc)) Hu Hv). }
  simpl. repeat split.
  - unfold clicks_of; simpl. rewrite filter_app; simpl.
    now rewrite Z.eqb_refl.
  - exact Hmap.
  - apply in_map_iff. exists u. rewrite Z.eqb_refl. auto.
Qed.

Lemma add_click_atomic_witness :
  let u := mk_user 1 42 "bob" "Bob" "" 1700000000 0 "b6bae945" (Some 999) 1700000000 in
  let x := run (add_click 42 "skillbox" (Some 5) 1700000010) None store_bob in
  let row := mk_click 1 1 "skillbox" (Some 5) 1700000010 in
  result_of x = Returned tt /\
  (hits None 4 = false ->
     clicks (store_of x) = clicks store_bob ++ [row] /\
     clicks_of u (store_of x) = clicks_of u store_bob ++ [row] /\
     users (store_of x) =
       map (fun v => if telegram_id v =? 42 then count_click 1700000010 v else v)
           (users store_bob) /\
     In (count_click 1700000010 u) (users (store_of x)) /\
     clicks_count (count_click 1700000010 u) = clicks_count u + 1 /\
     last_active (count_click 1700000010 u) = 1700000010) /\
  (hits None 4 = true -> store_of x = store_bob).
Proof.
  apply (add_click_atomic store_bob
           (mk_user 1 42 "bob" "Bob" "" 1700000000 0 "b6bae945" (Some 999) 1700000000)
           "skillbox" (Some 5) 1700000010 None).
  - apply wf_store_bob.
  - vm_compute. left. reflexivity.
  - reflexivity.
Defined.

(** C4 as stated fails in its last part: the value [add_click] returns for
    a registered user and an unknown platform, on which the store is left
    as it was, is the value it returns for a click it records. *)
Lemma add_click_rejection_not_indicated :
  registered 42 store_bob /\
  store_of (run (add_click 42 "unknown_platform" None 1700000010) None store_bob)
    = store_bob /\
  store_of (run (add_click 42 "skillbox" (Some 5) 1700000010) None store_bob)
    <> store_bob /\
  result_of (run (add_click 42 "unknown_platform" None 1700000010) None store_bob)
    = result_of (run (add_click 42 "skillbox" (Some 5) 1700000010) None store_bob).
Proof.
  split; [vm_compute; left; reflexivity|].
  split; [reflexivity|].
  split; [|now rewrite !add_click_result].
  intros E. apply (f_equal clicks) in E. vm_compute in E. discriminate E.
Qed.

(** C4, amended.  When the platform is not a key of [PARTNER_LINKS], or no
    user has the telegram id, [add_click] does not raise, whichever
    statement fails; the committed store, hence the ledger and every
    counter, is the one before the call; one record is logged, a warning
    naming the platform or the missing user, or the error of a failed
    select.  The value returned is [None] on every path, as for a recorded
    click. *)
Theorem add_click_rejected :
  forall (tid : Z) (p : string) (course : option Z) (now : Z) (f : option nat) (d : db),
    dict_in p PARTNER_LINKS = false \/ ~ registered tid d ->
    let x := run (add_click tid p course now) f d in
    result_of x = Returned tt /\
    store_of x = d /\
    (log_of x = [(WARNING, UnknownPlatform p)] \/
     log_of x = [(WARNING, UserNotFound tid)] \/
     log_of x = [(ERROR, ClickFailed)]) /\
    (forall tid' p' course' now' f' d',
        result_of (run (add_click tid' p' course' now') f' d') = result_of x).
Proof.
  intros tid p course now f d H x. subst x.
  rewrite add_click_result, add_click_store.
  split; [reflexivity|].
  split; [|split].
  - destruct (dict_in p PARTNER_LINKS) eqn:Hp; [|reflexivity].
    destruct H as [H | H]; [discriminate|].
    unfold select_user_id; simpl fst.
    now rewrite (find_none_unregistered tid (users d) H).
  - destruct (dict_in p PARTNER_LINKS) eqn:Hp.
    + destruct H as [H | H]; [discriminate|].
      rewrite (add_click_log_unknown_user _ _ _ _ _ _ Hp H).
      destruct (hits f 1); auto.
    + left. now apply add_click_log_unknown_platform.
  - intros. apply add_click_result.
Qed.

Lemma add_click_rejected_witness :
  let x := run (add_click 42 "unknown_platform" (Some 5) 1700000010) None store_bob in
  result_of x = Returned tt /\
  store_of x = store_bob /\
  (log_of x = [(WARNING, UnknownPlatform "unknown_platform")] \/
   log_of x = [(WARNING, UserNotFound 42)] \/
   log_of x = [(ERROR, ClickFailed)]) /\
  (forall tid' p' course' now' f' d',
      result_of (run (add_click tid' p' course' now') f' d') = result_of x).
Proof.
  apply (add_click_rejected 42 "unknown_platform" (Some 5) 1700000010 None store_bob).
  left. reflexivity.
Defined.

(** ** The registry: [update_user_activity] *)

(** C8.  [update_user_activity] never raises, whichever statement or commit
    fails and whether or not the user exists.  When no user has the telegram
    id the store is left as it was and, on a store that works, nothing is
    logged.
    When the update and the commit go through, the rows with that telegram
    id get [last_active] set to now and nothing else changes: every other
    row, every other column, the ledger and the sequences are as before.
    When one of the two fails the store is as before. *)
Theorem update_user_activity_touch :
  forall (tid now : Z) (f : option nat) (d : db),
    let x := run (update_user_activity tid now) f d in
    result_of x = Returned tt /\
    (~ registered tid d -> store_of x = d /\ (f = None -> log_of x = [])) /\
    (hits f 2 = false ->
       store_of x =
         mk_db (map (fun u => if telegram_id u =? tid
                              then mk_user (u_id u) (telegram_id u) (username u)
                                     (first_name u) (last_name u) (registered_at u)
                                     (clicks_count u) (ref_code u) (referrer_id u) now
                              else u) (users d))
               (clicks d) (seq_users d) (seq_clicks d)) /\
    (hits f 2 = true -> store_of x = d).
Proof.
  intros tid now f d x. subst x.
  rewrite update_user_activity_result, update_user_activity_store,
    update_user_activity_log.
  split; [reflexivity|]. split; [|split].
  - intros H. split.
    + destruct (hits f 2); [reflexivity|].
      unfold update_last_active; simpl.
      rewrite (map_if_same _ _ _ (tid_test_false tid (users d) H)).
      now destruct d.
    + intros ->. reflexivity.
  - intros ->. reflexivity.
  - intros ->. reflexivity.
Qed.

Lemma update_user_activity_touch_witness :
  store_of (run (update_user_activity 77 1700000500) None store_bob) = store_bob /\
  (@None nat = None ->
   log_of (run (update_user_activity 77 1700000500) None store_bob) = []).
Proof.
  apply (update_user_activity_touch 77 1700000500 None store_bob).
  vm_compute. intros [E | []]. discriminate E.
Defined.

Example update_user_activity_bob :
  users (store_of (run (update_user_activity 42 1700000500) None store_bob)) =
  [mk_user 1 42 "bob" "Bob" "" 1700000000 0 "b6bae945" (Some 999) 1700000500].
Proof. vm_compute. reflexivity. Qed.

(** ** The statistics of a user: [get_user_stats] *)

(** C7.  For a telegram id that no user row has, [get_user_stats] returns
    [None]: it does not raise, whichever statement fails, it returns no
    record at all, and the store is left as it was. *)
Theorem get_user_stats_unregistered :
  forall (tid : Z) (f : option nat) (d : db),
    ~ registered tid d ->
    let x := run (get_user_stats tid) f d in
    result_of x = Returned None /\ store_of x = d.
Proof.
  intros tid f d H x. subst x.
  rewrite get_user_stats_result, get_user_stats_store.
  split; [|reflexivity].
  unfold select_user_data; simpl fst.
  now rewrite (filter_nil_iff _ _ (tid_test_false tid (users d) H)).
Qed.

Lemma get_user_stats_unregistered_witness :
  result_of (run (get_user_stats 43) None store_bob_clicks) = Returned None /\
  store_of (run (get_user_stats 43) None store_bob_clicks) = store_bob_clicks.
Proof.
  apply (get_user_stats_unregistered 43 None store_bob_clicks).
  vm_compute. intros [E | []]. discriminate E.
Defined.

(** C10.  For a registered user without a click in the ledger,
    [get_user_stats] on a store that works returns a record, not [None]:
    the user's row with both counts 0, an empty breakdown and an empty list
    of recent clicks. *)
Theorem get_user_stats_no_clicks :
  forall (u : user_row) (d : db),
    wf d -> In u (users d) -> clicks_of u d = [] ->
    result_of (run (get_user_stats (telegram_id u)) None d) =
      Returned (Some (mk_stats (mk_user_data u 0 0) [] [])) /\
    result_of (run (get_user_stats (telegram_id u)) None d) <> Returned None.
Proof.
  intros u d Hwf Hu Hz.
  assert (E : result_of (run (get_user_stats (telegram_id u)) None d) =
              Returned (Some (mk_stats (mk_user_data u 0 0) [] []))).
  { rewrite get_user_stats_result.
    unfold select_user_data, select_platforms_clicks, select_recent_clicks; simpl fst.
    destruct Hwf as (Hi & Ht & Hc).
    rewrite (filter_by_key _ telegram_id u Ht Hu).
    rewrite (clicks_joined_registered d u (conj Hi (conj Ht Hc)) Hu).
    fold (clicks_of u d). rewrite Hz. reflexivity. }
  split; [exact E|]. rewrite E. discriminate.
Qed.

Lemma get_user_stats_no_clicks_witness :
  let u := mk_user 1 42 "bob" "Bob" "" 1700000000 0 "b6bae945" (Some 999) 1700000000 in
  result_of (run (get_user_stats 42) None store_bob) =
    Returned (Some (mk_stats (mk_user_data u 0 0) [] [])) /\
  result_of (run (get_user_stats 42) None store_bob) <> Returned None.
Proof.
  apply (get_user_stats_no_clicks
           (mk_user 1 42 "bob" "Bob" "" 1700000000 0 "b6bae945" (Some 999) 1700000000)
           store_bob).
  - apply wf_store_bob.
  - vm_compute. left. reflexivity.
  - reflexivity.
Defined.

(** ** The registry: [add_user] *)

Lemma insert_fresh_user tid un fn ln code r now d :
  ~ registered tid d -> ~ In code (map ref_code (users d)) ->
  insert_or_ignore_user tid un fn ln code r now d =
  (1, mk_db (users d ++ [mk_user (next_rowid (seq_users d) (map u_id (users d)))
                                 tid un fn ln now 0 code r now])
            (clicks d) (next_rowid (seq_users d) (map u_id (users d))) (seq_clicks d)).
Proof.
  intros Ht Hc. unfold insert_or_ignore_user. cbv zeta.
  now rewrite (existsb_unique_fresh tid code (users d) Ht Hc).
Qed.

(** An INSERT that is ignored changes no row; the sequence moves on. *)
Lemma insert_ignored_user tid un fn ln code r now d :
  registered tid d \/ In code (map ref_code (users d)) ->
  insert_or_ignore_user tid un fn ln code r now d =
  (0, mk_db (users d) (clicks d) (next_rowid (seq_users d) (map u_id (users d)))
            (seq_clicks d)).
Proof.
  intros H. unfold insert_or_ignore_user. cbv zeta.
  destruct (existsb _ (users d)) eqn:E; [reflexivity|].
  apply existsb_unique_false in E as [Ht Hc]. destruct H; contradiction.
Qed.

Lemma insert_registered_user tid un fn ln code r now d :
  registered tid d ->
  insert_or_ignore_user tid un fn ln code r now d =
  (0, mk_db (users d) (clicks d) (next_rowid (seq_users d) (map u_id (users d)))
            (seq_clicks d)).
Proof. intros Ht. apply insert_ignored_user. now left. Qed.

(** A call for a telegram id that is registered changes no row of either
    table, whatever fails and whatever its parameters. *)
Lemma add_user_registered tid un fn ln r now stamp f d :
  registered tid d ->
  users (store_of (run (add_user tid un fn ln r now stamp) f d)) = users d /\
  clicks (store_of (run (add_user tid un fn ln r now stamp) f d)) = clicks d.
Proof.
  intros H. rewrite add_user_store.
  destruct (add_user_runs tid r f); [|now split].
  now rewrite insert_registered_user.
Qed.

(** C2 at a concrete input: user 42 registers on an empty store and calls
    [add_user] again one second later.  The second call changes no row of
    the two tables: the one user row keeps the code of the first call; it
    only uses up a rowid of the sequence.  It returns another code, which no
    row has. *)
Theorem add_user_twice_codes_differ :
  let x1 := run (add_user 42 "bob" "Bob" "" (Some 999) 1700000000 "1700000000.25")
                None empty_db in
  let x2 := run (add_user 42 "bob" "Bob" "" (Some 999) 1700000001 "1700000001.25")
                None (store_of x1) in
  result_of x1 = Returned (Some "b6bae945") /\
  result_of x2 = Returned (Some "ab83cc2e") /\
  users (store_of x2) = users (store_of x1) /\
  clicks (store_of x2) = clicks (store_of x1) /\
  map ref_code (users (store_of x2)) = ["b6bae945"] /\
  seq_users (store_of x1) = 1 /\ seq_users (store_of x2) = 2.
Proof.
  cbv zeta. rewrite !add_user_result.
  split; [vm_compute; reflexivity|].
  split; [vm_compute; reflexivity|].
  split; [apply add_user_registered; vm_compute; left; reflexivity|].
  split; [apply add_user_registered; vm_compute; left; reflexivity|].
  vm_compute. auto.
Qed.

(** C9.  [add_user] stores the referrer it is given without looking it up:
    a first registration with a referrer id that no user has succeeds and
    leaves a row whose [referrer_id] is that id, while the store still has
    no user with that telegram id.  The only referrer ids that are not
    stored are those SQLite cannot hold: the call then returns [None] and
    leaves the store as it was. *)
Theorem add_user_dangling_referrer :
  forall (tid : Z) (un fn ln : string) (referrer now : Z) (stamp : string) (d : db),
    ~ registered tid d ->
    ~ In (gen_ref_code tid stamp) (map ref_code (users d)) ->
    ~ registered referrer d -> referrer <> tid ->
    let x := run (add_user tid un fn ln (Some referrer) now stamp) None d in
    (int64 tid = true -> int64 referrer = true ->
     result_of x = Returned (Some (gen_ref_code tid stamp)) /\
     users (store_of x) =
       users d ++ [mk_user (next_rowid (seq_users d) (map u_id (users d))) tid un fn ln
                           now 0 (gen_ref_code tid stamp) (Some referrer) now] /\
     ~ registered referrer (store_of x)) /\
    (int64 tid && int64 referrer = false ->
     result_of x = Returned None /\ store_of x = d).
Proof.
  intros tid un fn ln referrer now stamp d Ht Hc Hr Hne x. subst x.
  rewrite add_user_result, add_user_store. unfold add_user_runs. cbn [binds hits negb].
  rewrite andb_true_r. split.
  - intros H1 H2. rewrite H1, H2. cbn [andb].
    rewrite (insert_fresh_user _ _ _ _ _ _ _ _ Ht Hc). simpl.
    repeat split.
    unfold registered; simpl. rewrite map_app, in_app_iff; simpl.
    intros [H | [H | []]]; [now apply Hr | congruence].
  - intros H. rewrite H. now split.
Qed.

Lemma add_user_dangling_referrer_witness :
  let x := run (add_user 42 "bob" "Bob" "" (Some 999) 1700000000 "1700000000.25")
               None empty_db in
  result_of x = Returned (Some (gen_ref_code 42 "1700000000.25")) /\
  users (store_of x) =
    users empty_db ++
    [mk_user (next_rowid (seq_users empty_db) (map u_id (users empty_db))) 42
             "bob" "Bob" "" 1700000000 0 (gen_ref_code 42 "1700000000.25")
             (Some 999) 1700000000] /\
  ~ registered 999 (store_of x).
Proof.
  apply (add_user_dangling_referrer 42 "bob" "Bob" "" 999 1700000000 "1700000000.25"
           empty_db).
  - intros [].
  - intros [].
  - intros [].
  - discriminate.
  - reflexivity.
  - reflexivity.
Defined.

(** The same through [start_command]: "/start ref999" on an empty store. *)
Example start_command_dangling_referrer :
  users (start_command 42 "bob" "Bob" "" (Some "ref999") 1700000000 "1700000000.25"
           empty_db) =
  [mk_user 1 42 "bob" "Bob" "" 1700000000 0 "b6bae945" (Some 999) 1700000000].
Proof. vm_compute. reflexivity. Qed.

(** A referrer that SQLite cannot hold: "/start ref9223372036854775808"
    registers nobody. *)
Example start_command_referrer_too_large :
  referrer_of_args (Some "ref9223372036854775808") = Some (2 ^ 63) /\
  run (add_user 42 "bob" "Bob" "" (Some (2 ^ 63)) 1700000000 "1700000000.25") None empty_db =
    (Returned None, empty_db, [(ERROR, AddUserFailed)]) /\
  start_command 42 "bob" "Bob" "" (Some "ref9223372036854775808") 1700000000
    "1700000000.25" empty_db = empty_db.
Proof. vm_compute. auto. Qed.

Example referrer_of_args_cases :
  referrer_of_args None = None /\
  referrer_of_args (Some "ref") = None /\
  referrer_of_args (Some "ref12_3") = Some 123 /\
  referrer_of_args (Some "ref-5") = Some (-5) /\
  referrer_of_args (Some "ref5_") = None /\
  referrer_of_args (Some "promo") = None.
Proof. vm_compute. repeat split. Qed.

(** ** Referral codes of a batch of registrations *)













(** A registration whose referrer SQLite cannot hold creates no row and
    returns no code. *)
Example register_all_referrer_too_large :
  register_all [mk_registration 101 "a" "A" "" (Some (2 ^ 63)) 1700000000 "1700000000.5"]
    empty_db = ([None], empty_db).
Proof. vm_compute. reflexivity. Qed.

Example three_registrations_codes :
  fst (register_all three_registrations empty_db) =
  [Some "b8c6baea"; Some "289a9eed"; Some "21b46023"].
Proof. vm_compute. reflexivity. Qed.

(** ** ORDER BY and GROUP BY *)

Section OrderBy.
Context {A : Type} (key : A -> Z).

Lemma insert_desc_perm (x : A) (l : list A) :
  Permutation (insert_desc key x l) (x :: l).
Proof.
  induction l as [|y l IH]; simpl; [reflexivity|].
  destruct (key x <? key y); [|reflexivity].
  rewrite IH. apply perm_swap.
Qed.

Lemma order_by_desc_perm (l : list A) : Permutation (order_by_desc key l) l.
Proof.
  induction l as [|x l IH]; simpl; [reflexivity|].
  rewrite insert_desc_perm. now constructor.
Qed.

Lemma insert_desc_sorted (x : A) (l : list A) :
  StronglySorted (desc key) l -> StronglySorted (desc key) (insert_desc key x l).
Proof.
  induction 1 as [|y l Hs IH Hy]; simpl.
  - repeat constructor.
  - destruct (key x <? key y) eqn:E.
    + apply Z.ltb_lt in E. constructor; [exact IH|].
      apply (Permutation_Forall (Permutation_sym (insert_desc_perm x l))).
      constructor; [unfold desc; lia | exact Hy].
    + apply Z.ltb_ge in E. constructor; [now constructor|].
      constructor; [exact E|].
      apply (Forall_impl _ (P := desc key y)); [|exact Hy].
      unfold desc. intros; lia.
Qed.

Lemma order_by_desc_sorted (l : list A) :
  StronglySorted (desc key) (order_by_desc key l).
Proof.
  induction l as [|x l IH]; simpl; [constructor|]. now apply insert_desc_sorted.
Qed.

End OrderBy.

Section GroupBy.
Context {A : Type} (dec : forall x y : A, {x = y} + {x <> y}).

Lemma group_count_keys (ks : list A) :
  map fst (group_count dec ks) = nodup dec ks.
Proof.
  unfold group_count. rewrite map_map. simpl. apply map_id.
Qed.

Lemma group_count_In (ks : list A) (k : A) (n : Z) :
  In (k, n) (group_count dec ks) <->
  In k ks /\ n = Z.of_nat (count_occ dec ks k).
Proof.
  unfold group_count. rewrite in_map_iff. split.
  - intros (k' & E & Hk). inversion E; subst. split; [|reflexivity].
    now apply (nodup_In dec).
  - intros (Hk & ->). exists k. split; [reflexivity|]. now apply nodup_In.
Qed.

Lemma group_count_perm (ks ks' : list A) :
  Permutation ks ks' -> Permutation (group_count dec ks) (group_count dec ks').
Proof.
  intros H. unfold group_count.
  rewrite (map_ext _ (fun k => (k, Z.of_nat (count_occ dec ks' k)))).
  - apply Permutation_map. apply NoDup_Permutation; try apply NoDup_nodup.
    intros k. rewrite !nodup_In. split; apply Permutation_in; [|symmetry]; exact H.
  - intros k. now rewrite (proj1 (Permutation_count_occ dec ks ks') H k).
Qed.

End GroupBy.

(** A breakdown with two groups of different sizes has one possible order. *)
Lemma sorted_pair_unique (l : list (string * Z)) (a b : string * Z) :
  snd b < snd a ->
  Permutation l [a; b] -> StronglySorted (desc snd) l -> l = [a; b].
Proof.
  intros Hlt Hp Hs. apply Permutation_sym, Permutation_length_2_inv in Hp.
  destruct Hp as [-> | ->]; [reflexivity|].
  inversion Hs as [|? ? _ Hf]; subst. inversion Hf as [|? ? Hd _]; subst.
  unfold desc in Hd. lia.
Qed.

(** C5.  For a registered user, [get_user_stats] on a store that works
    returns the user's row with the number of the user's clicks and the
    number of distinct platforms among them; a breakdown that has one entry
    per platform the user clicked, with the number of those clicks, ordered
    by descending count; and the clicks' platform and time ordered by
    descending time, cut to the first five.  When the user's clicks are two
    on skillbox and one on geekbrains, in any order, the breakdown is
    [("skillbox", 2); ("geekbrains", 1)] and the total is 3. *)
Theorem get_user_stats_registered :
  forall (u : user_row) (d : db),
    wf d -> In u (users d) ->
    exists s : stats,
      result_of (run (get_user_stats (telegram_id u)) None d) = Returned (Some s) /\
      ud_row (user s) = u /\
      total_clicks (user s) = Z.of_nat (List.length (clicks_of u d)) /\
      platforms_count (user s) =
        Z.of_nat (List.length (nodup string_dec (map platform (clicks_of u d)))) /\
      (forall p n, In (p, n) (platforms_clicks s) <->
                   In p (map platform (clicks_of u d)) /\
                   n = Z.of_nat (count_occ string_dec (map platform (clicks_of u d)) p)) /\
      NoDup (map fst (platforms_clicks s)) /\
      StronglySorted (desc snd) (platforms_clicks s) /\
      (exists sorted,
          Permutation sorted (clicks_of u d) /\
          StronglySorted (desc clicked_at) sorted /\
          recent_clicks s = map (fun c => (platform c, clicked_at c)) (firstn 5 sorted)) /\
      List.length (recent_clicks s) = Nat.min 5 (List.length (clicks_of u d)) /\
      (Permutation (map platform (clicks_of u d)) ["skillbox"; "skillbox"; "geekbrains"] ->
       platforms_clicks s = [("skillbox", 2); ("geekbrains", 1)] /\
       total_clicks (user s) = 3).
Proof.
  intros u d Hwf Hu.
  pose proof (clicks_joined_registered d u Hwf Hu) as Hj.
  destruct Hwf as (Hi & Ht & Hc).
  exists (mk_stats
            (mk_user_data u
               (Z.of_nat (List.length (nodup string_dec (map platform (clicks_of u d)))))
               (Z.of_nat (List.length (clicks_of u d))))
            (order_by_desc snd (group_count string_dec (map platform (clicks_of u d))))
            (firstn 5 (map (fun c => (platform c, clicked_at c))
                           (order_by_desc clicked_at (clicks_of u d))))).
  split.
  { rewrite get_user_stats_result.
    unfold select_user_data, select_platforms_clicks, select_recent_clicks; simpl fst.
    rewrite (filter_by_key _ telegram_id u Ht Hu), Hj. fold (clicks_of u d).
    simpl hits. cbv iota. reflexivity. }
  cbn [user ud_row total_clicks platforms_count platforms_clicks recent_clicks].
  set (ks := map platform (clicks_of u d)).
  assert (Hperm : Permutation (order_by_desc snd (group_count string_dec ks))
                              (group_count string_dec ks))
    by apply order_by_desc_perm.
  split; [reflexivity|]. split; [reflexivity|]. split; [reflexivity|].
  split; [|split; [|split; [|split; [|split]]]].
  - intros p n. rewrite <- group_count_In.
    split; apply Permutation_in; [exact Hperm | symmetry; exact Hperm].
  - apply (Permutation_NoDup (l := map fst (group_count string_dec ks))).
    + apply Permutation_map. now symmetry.
    + rewrite group_count_keys. apply NoDup_nodup.
  - apply order_by_desc_sorted.
  - exists (order_by_desc clicked_at (clicks_of u d)).
    split; [apply order_by_desc_perm|]. split; [apply order_by_desc_sorted|].
    apply firstn_map.
  - rewrite length_firstn, length_map.
    now rewrite (Permutation_length (order_by_desc_perm clicked_at (clicks_of u d))).
  - intros H. split.
    + apply sorted_pair_unique; [simpl; lia| |apply order_by_desc_sorted].
      rewrite Hperm.
      change [("skillbox", 2); ("geekbrains", 1)]
        with (group_count string_dec ["skillbox"; "skillbox"; "geekbrains"]).
      now apply group_count_perm.
    + rewrite <- (length_map platform). fold ks.
      now rewrite (Permutation_length H).
Qed.

Lemma get_user_stats_registered_witness :
  exists s : stats,
    result_of (run (get_user_stats 42) None store_bob_clicks) = Returned (Some s) /\
    platforms_clicks s = [("skillbox", 2); ("geekbrains", 1)] /\
    total_clicks (user s) = 3.
Proof.
  destruct (get_user_stats_registered
              (mk_user 1 42 "bob" "Bob" "" 1700000000 3 "b6bae945" (Some 999) 1700000012)
              store_bob_clicks wf_store_bob_clicks)
    as (s & Hres & _ & _ & _ & _ & _ & _ & _ & _ & Hex).
  - vm_compute. left. reflexivity.
  - exists s. split; [exact Hres|]. apply Hex. vm_compute. reflexivity.
Defined.

Example get_user_stats_bob :
  result_of (run (get_user_stats 42) None store_bob_clicks) =
  Returned (Some (mk_stats
    (mk_user_data
       (mk_user 1 42 "bob" "Bob" "" 1700000000 3 "b6bae945" (Some 999) 1700000012) 2 3)
    [("skillbox", 2); ("geekbrains", 1)]
    [("geekbrains", 1700000012); ("skillbox", 1700000011); ("skillbox", 1700000010)])).
Proof. vm_compute. reflexivity. Qed.

(** ** The statistics of [admin_panel] *)

Lemma admin_panel_result admin_id now d :
  result_of (run (admin_panel admin_id admin_id now) None d) =
  Returned (Some (mk_global_stats
    (fst (select_total_users d)) (fst (select_active_users now d))
    (fst (select_total_clicks d)) (fst (select_platform_stats d))
    (fst (select_daily_stats now d)))).
Proof.
  unfold admin_panel. simpl existsb. rewrite Z.eqb_refl. reflexivity.
Qed.

Lemma admin_panel_denied admin_id from_user now f d :
  from_user <> admin_id ->
  run (admin_panel admin_id from_user now) f d = (Returned None, d, []).
Proof.
  intros H. unfold admin_panel. simpl existsb.
  apply Z.eqb_neq in H. rewrite H. reflexivity.
Qed.

Lemma counted_active_In now d tid :
  In tid (counted_active now d) <->
  exists u, In u (users d) /\ telegram_id u = tid /\ now - seven_days < last_active u.
Proof.
  unfold counted_active. rewrite nodup_In, in_map_iff. split.
  - intros (u & E & H). apply filter_In in H as [H1 H2]. apply Z.ltb_lt in H2. eauto.
  - intros (u & H1 & E & H2). exists u. split; [exact E|].
    apply filter_In. split; [exact H1|]. now apply Z.ltb_lt.
Qed.

(** C6.  The active-users figure that the administrator gets is the number
    of distinct telegram ids among the user rows whose [last_active] is
    later than seven days before now.  It is read off the users table only:
    the ledger plays no part.  A user whose [last_active] is now is counted;
    a user whose [last_active] is eight days old is not. *)
Theorem active_users_by_last_activity :
  forall (admin_id now : Z) (d : db),
    exists g : global_stats,
      result_of (run (admin_panel admin_id admin_id now) None d) = Returned (Some g) /\
      active_users g = Z.of_nat (List.length (counted_active now d)) /\
      NoDup (counted_active now d) /\
      (forall tid, In tid (counted_active now d) <->
                   exists u, In u (users d) /\ telegram_id u = tid /\
                             now - 7 * 86400 < last_active u) /\
      (forall u, In u (users d) -> last_active u = now ->
                 In (telegram_id u) (counted_active now d)) /\
      (forall u, wf d -> In u (users d) -> last_active u = now - 8 * 86400 ->
                 ~ In (telegram_id u) (counted_active now d)) /\
      (forall d', users d' = users d -> counted_active now d' = counted_active now d).
Proof.
  intros admin_id now d. eexists. split; [apply admin_panel_result|].
  cbn [active_users]. split; [reflexivity|].
  split; [apply NoDup_nodup|].
  split; [intros tid; apply counted_active_In|].
  split; [|split].
  - intros u Hu E. apply counted_active_In. exists u.
    unfold seven_days. repeat split; [assumption|lia].
  - intros u (_ & Ht & _) Hu E H. apply counted_active_In in H as (v & Hv & Etid & Hlt).
    rewrite (NoDup_map_eq telegram_id _ _ _ Ht Hv Hu Etid) in Hlt.
    unfold seven_days in Hlt. lia.
  - intros d' E. unfold counted_active. now rewrite E.
Qed.

Lemma active_users_by_last_activity_witness :
  exists g : global_stats,
    result_of (run (admin_panel 7 7 1700691200) None store_two_users) = Returned (Some g) /\
    active_users g = 1 /\
    In 2 (counted_active 1700691200 store_two_users) /\
    ~ In 1 (counted_active 1700691200 store_two_users).
Proof.
  destruct (active_users_by_last_activity 7 1700691200 store_two_users)
    as (g & Hres & Hcount & _ & _ & Hnow & Hold & _).
  exists g. split; [exact Hres|]. split; [rewrite Hcount; vm_compute; reflexivity|].
  split.
  - apply (Hnow (mk_user 2 2 "new" "New" "" 1700691200 0 "6e5900e6" None 1700691200)).
    + vm_compute. right. left. reflexivity.
    + reflexivity.
  - apply (Hold (mk_user 1 1 "old" "Old" "" 1700000000 0 "389323aa" None 1700000000)).
    + unfold store_two_users. repeat apply wf_add_user. apply wf_empty.
    + vm_compute. left. reflexivity.
    + reflexivity.
Defined.

(** ** Invariants of the reachable stores *)

Lemma reachable_wf d : reachable d -> wf d.
Proof.
  induction 1.
  - apply wf_empty.
  - now apply wf_add_user.
  - now apply wf_update_user_activity.
  - now apply wf_add_click.
  - now rewrite get_user_stats_store.
Qed.

Lemma clicks_of_same u u' d d' :
  u_id u' = u_id u -> clicks d' = clicks d -> clicks_of u' d' = clicks_of u d.
Proof. intros E1 E2. unfold clicks_of. now rewrite E1, E2. Qed.

Lemma ledger_insert_or_ignore_user tid un fn ln code r now d :
  ledger_consistent d ->
  ledger_consistent (snd (insert_or_ignore_user tid un fn ln code r now d)).
Proof.
  intros (Hint & Hcnt). unfold insert_or_ignore_user. cbv zeta.
  destruct (existsb _ (users d)); simpl; [now split|].
  set (id := next_rowid (seq_users d) (map u_id (users d))).
  split; simpl.
  - intros c Hc. rewrite map_app. apply in_or_app. left. now apply Hint.
  - intros u Hu. apply in_app_or in Hu as [Hu | [<- | []]].
    + rewrite (Hcnt u Hu). reflexivity.
    + simpl. unfold clicks_of; simpl. rewrite filter_nil_iff; [reflexivity|].
      intros c Hc. apply Z.eqb_neq. intros E.
      apply (next_rowid_fresh (seq_users d) (map u_id (users d))).
      fold id. rewrite <- E. now apply Hint.
Qed.

Lemma ledger_update_last_active tid now d :
  ledger_consistent d -> ledger_consistent (snd (update_last_active tid now d)).
Proof.
  intros (Hint & Hcnt). unfold update_last_active. split; simpl.
  - intros c Hc. rewrite map_key_update by reflexivity. now apply Hint.
  - intros u' Hu'. apply in_map_iff in Hu' as (u & E & Hu).
    rewrite (clicks_of_same u u' d); [| now destruct (telegram_id u =? tid); subst | reflexivity].
    rewrite <- (Hcnt u Hu). now destruct (telegram_id u =? tid); subst.
Qed.

Lemma ledger_record_click uid p course now d :
  In uid (map u_id (users d)) ->
  ledger_consistent d ->
  ledger_consistent (snd (update_click_counter uid now (snd (insert_click uid p course now d)))).
Proof.
  intros Huid (Hint & Hcnt). unfold update_click_counter, insert_click. split; simpl.
  - intros c Hc. rewrite map_key_update by reflexivity.
    apply in_app_or in Hc as [Hc | [<- | []]]; [now apply Hint | exact Huid].
  - intros u' Hu'. apply in_map_iff in Hu' as (u & E & Hu).
    unfold clicks_of; simpl. rewrite filter_app, length_app; simpl.
    assert (Eid : u_id u' = u_id u) by (now destruct (u_id u =? uid); subst).
    rewrite Eid, (Z.eqb_sym uid). fold (clicks_of u d).
    destruct (u_id u =? uid); subst u'; simpl; rewrite (Hcnt u Hu); lia.
Qed.

Lemma reachable_ledger d : reachable d -> ledger_consistent d.
Proof.
  induction 1 as [| d tid un fn ln r now stamp f H IH | d tid now f H IH
                  | d tid p course now f H IH | d tid f H IH].
  - split; simpl; [intros c [] | intros u []].
  - rewrite add_user_store. destruct (add_user_runs tid r f); [|assumption].
    now apply ledger_insert_or_ignore_user.
  - rewrite update_user_activity_store. destruct (hits f 2); [assumption|].
    now apply ledger_update_last_active.
  - rewrite add_click_store.
    destruct (dict_in p PARTNER_LINKS); [|assumption].
    unfold select_user_id; simpl fst.
    destruct (find _ (users d)) as [u|] eqn:E; simpl; [|assumption].
    destruct (hits f 4); [assumption|].
    apply ledger_record_click; [|assumption].
    apply find_some in E as [Hu _]. now apply in_map.
  - now rewrite get_user_stats_store.
Qed.

Lemma reachable_platforms d : reachable d -> platforms_known d.
Proof.
  induction 1 as [| d tid un fn ln r now stamp f H IH | d tid now f H IH
                  | d tid p course now f H IH | d tid f H IH].
  - intros c [].
  - rewrite add_user_store. destruct (add_user_runs tid r f); [|assumption].
    unfold insert_or_ignore_user. cbv zeta. now destruct (existsb _ (users d)).
  - rewrite update_user_activity_store. now destruct (hits f 2).
  - rewrite add_click_store.
    destruct (dict_in p PARTNER_LINKS) eqn:Hp; [|assumption].
    destruct (fst (select_user_id tid d)); [|assumption].
    destruct (hits f 4); [assumption|].
    intros c Hc. simpl in Hc. apply in_app_or in Hc as [Hc | [<- | []]]; auto.
  - now rewrite get_user_stats_store.
Qed.

(** Every store the bot reaches from a fresh [init_db], whatever statement
    or commit failed on the way, has pairwise distinct row ids, telegram ids
    and referral codes; each of its clicks belongs to a user row and is on a
    platform of [PARTNER_LINKS]; and each user's [clicks_count] is the
    number of the user's clicks in the ledger. *)
Theorem reachable_consistent :
  forall d : db, reachable d -> wf d /\ ledger_consistent d /\ platforms_known d.
Proof.
  intros d H. split; [now apply reachable_wf|].
  split; [now apply reachable_ledger | now apply reachable_platforms].
Qed.

Lemma reachable_consistent_witness :
  wf store_bob_clicks /\ ledger_consistent store_bob_clicks /\
  platforms_known store_bob_clicks.
Proof.
  apply (reachable_consistent store_bob_clicks).
  unfold store_bob_clicks, store_bob.
  repeat apply reach_add_click. apply reach_add_user. apply reach_init.
Defined.

(** ** Registering twice *)

Lemma filter_key_at_most_one (l : list user_row) (tid : Z) :
  NoDup (map telegram_id l) ->
  (List.length (filter (fun u => (telegram_id u =? tid)%Z) l) <= 1)%nat.
Proof.
  intros Hnd.
  destruct (in_dec Z.eq_dec tid (map telegram_id l)) as [Hin | Hout].
  - apply in_map_iff in Hin as (u & <- & Hu).
    now rewrite (filter_by_key l telegram_id u Hnd Hu).
  - rewrite (filter_nil_iff _ _ (tid_test_false tid l Hout)). simpl. lia.
Qed.

(** On a consistent store, two calls of [add_user] for one telegram id,
    with whatever names, referrers, times and failing statements, leave at
    most one row for that id; and a call for an id that is registered
    changes no row of the users table and none of the ledger, so the row
    keeps the code it was given. *)
Theorem add_user_no_second_row :
  forall (tid : Z) (un fn ln un' fn' ln' : string) (r r' : option Z) (now now' : Z)
         (stamp stamp' : string) (f f' : option nat) (d : db),
    wf d ->
    let d1 := store_of (run (add_user tid un fn ln r now stamp) f d) in
    let d2 := store_of (run (add_user tid un' fn' ln' r' now' stamp') f' d1) in
    (List.length (rows_of tid d2) <= 1)%nat /\
    (registered tid d1 -> users d2 = users d1 /\ clicks d2 = clicks d1).
Proof.
  intros tid un fn ln un' fn' ln' r r' now now' stamp stamp' f f' d Hwf d1 d2.
  split.
  - apply filter_key_at_most_one.
    apply (wf_add_user tid un' fn' ln' r' now' stamp' f' d1).
    now apply wf_add_user.
  - intros H. now apply add_user_registered.
Qed.

Lemma add_user_no_second_row_witness :
  let d1 := store_of (run (add_user 42 "bob" "Bob" "" (Some 999) 1700000000
                             "1700000000.25") None empty_db) in
  let d2 := store_of (run (add_user 42 "bobby" "Bob" "B" None 1700000001
                             "1700000001.25") None d1) in
  (List.length (rows_of 42 d2) <= 1)%nat /\
  (registered 42 d1 -> users d2 = users d1 /\ clicks d2 = clicks d1).
Proof.
  apply (add_user_no_second_row 42 "bob" "Bob" "" "bobby" "Bob" "B" (Some 999) None
           1700000000 1700000001 "1700000000.25" "1700000001.25" None None empty_db).
  apply wf_empty.
Defined.

(** ** Decimal text of an integer and [int()] *)

Lemma digits_value_digit (acc : Z) (b : bool) (c : ascii) (cs : list ascii) :
  is_digit c = true ->
  digits_value acc b (c :: cs) =
  digits_value (10 * acc + (Z.of_nat (nat_of_ascii c) - 48)) true cs.
Proof. intros H. simpl. now rewrite H. Qed.

Ltac digit_step :=
  cbn [NilEmpty.string_of_uint list_ascii_of_string];
  rewrite digits_value_digit by reflexivity.

Ltac digit_arith :=
  try (match goal with
       | |- context [Z.of_nat (nat_of_ascii ?c)] =>
           let v := eval vm_compute in (Z.of_nat (nat_of_ascii c)) in
           change (Z.of_nat (nat_of_ascii c)) with v
       end; lia).

Lemma digits_value_acc (l : Decimal.uint) :
  forall acc : positive,
    digits_value (Z.pos acc) true (list_ascii_of_string (NilEmpty.string_of_uint l)) =
    Some (Z.pos (Pos.of_uint_acc l acc)).
Proof.
  induction l; intros acc; cbn [Pos.of_uint_acc]; [reflexivity|..].
  all: digit_step; rewrite <- IHl; f_equal; digit_arith.
Qed.

Lemma digits_value_uint (l : Decimal.uint) :
  digits_value 0 true (list_ascii_of_string (NilEmpty.string_of_uint l)) =
  Some (Z.of_uint l).
Proof.
  unfold Z.of_uint.
  induction l; cbn [Pos.of_uint]; [reflexivity | digit_step; exact IHl |..].
  all: digit_step; cbn [Z.of_N]; rewrite <- digits_value_acc; f_equal; digit_arith.
Qed.

Lemma digits_value_first (l : Decimal.uint) :
  l <> Decimal.Nil ->
  digits_value 0 false (list_ascii_of_string (NilEmpty.string_of_uint l)) =
  Some (Z.of_uint l).
Proof.
  intros H. rewrite <- digits_value_uint.
  destruct l; [contradiction|..]; digit_step; symmetry; digit_step; reflexivity.
Qed.

Lemma uint_chars_digits (l : Decimal.uint) :
  Forall (fun c => is_digit c = true) (list_ascii_of_string (NilEmpty.string_of_uint l)).
Proof.
  induction l; cbn [NilEmpty.string_of_uint list_ascii_of_string]; constructor;
    auto.
Qed.

Lemma lstrip_id (cs : list ascii) :
  Forall (fun c => is_space c = false) cs -> lstrip cs = cs.
Proof. destruct 1 as [|c cs Hc _]; simpl; [reflexivity|]. now rewrite Hc. Qed.

Lemma strip_id (cs : list ascii) :
  Forall (fun c => is_space c = false) cs -> strip cs = cs.
Proof.
  intros H. unfold strip. rewrite (lstrip_id cs H), lstrip_id.
  - apply rev_involutive.
  - now apply Forall_rev.
Qed.

Lemma digit_bounds (c : ascii) :
  is_digit c = true -> (48 <= nat_of_ascii c <= 57)%nat.
Proof.
  unfold is_digit. intros H. apply andb_true_iff in H as [H1 H2].
  apply Nat.leb_le in H1. apply Nat.leb_le in H2. lia.
Qed.

Lemma digit_not_space (c : ascii) : is_digit c = true -> is_space c = false.
Proof.
  intros H. apply digit_bounds in H. unfold is_space.
  apply orb_false_iff. split; [apply andb_false_iff; right; apply Nat.leb_gt; lia|].
  apply Nat.eqb_neq. lia.
Qed.

(** ASCII text is its own code points, and [int()] parses it as it is. *)
Lemma ascii_code_points (cs : list ascii) :
  Forall (fun c => (nat_of_ascii c < 127)%nat) cs ->
  map to_ascii (code_points cs) = cs.
Proof.
  induction 1 as [|c cs Hc _ IH]; [reflexivity|].
  cbv beta in Hc. cbn [code_points].
  assert (E : (byte_of c <? 128) = true) by (apply Z.ltb_lt; unfold byte_of; lia).
  rewrite E. cbn [map]. rewrite IH. f_equal.
  unfold to_ascii, byte_of.
  assert (E1 : (0 <=? Z.of_nat (nat_of_ascii c)) && (Z.of_nat (nat_of_ascii c) <? 127) = true).
  { apply andb_true_iff. split; [apply Z.leb_le | apply Z.ltb_lt]; lia. }
  rewrite E1, Nat2Z.id. apply ascii_nat_embedding.
Qed.

Lemma filter_all {A : Type} (f : A -> bool) (l : list A) :
  Forall (fun x => f x = true) l -> filter f l = l.
Proof. induction 1 as [|x l Hx _ IH]; simpl; [reflexivity|]. now rewrite Hx, IH. Qed.

Lemma uint_chars_length (l : Decimal.uint) :
  List.length (list_ascii_of_string (NilEmpty.string_of_uint l)) = Decimal.nb_digits l.
Proof.
  induction l; cbn [NilEmpty.string_of_uint list_ascii_of_string Decimal.nb_digits List.length];
    congruence.
Qed.

(** A number with [n] digits after its first, which is not zero, is at least
    [10 ^ n]. *)
Lemma of_uint_acc_lower (l : Decimal.uint) :
  forall acc : positive,
    Z.pos acc * 10 ^ Z.of_nat (Decimal.nb_digits l) <= Z.pos (Pos.of_uint_acc l acc).
Proof.
  induction l; intros acc; cbn [Pos.of_uint_acc Decimal.nb_digits];
    [rewrite Z.pow_0_r; lia|..].
  all: rewrite Nat2Z.inj_succ, Z.pow_succ_r by lia;
    etransitivity; [|apply IHl];
    pose proof (Z.pow_nonneg 10 (Z.of_nat (Decimal.nb_digits l)));
    nia.
Qed.

Lemma to_uint_digits (p : positive) :
  10 ^ (Z.of_nat (Decimal.nb_digits (Pos.to_uint p)) - 1) <= Z.pos p.
Proof.
  pose proof (DecimalPos.Unsigned.of_to p) as Hv.
  pose proof (DecimalPos.Unsigned.to_of (Pos.to_uint p)) as Hn.
  rewrite Hv in Hn. cbn [N.to_uint] in Hn.
  pose proof (DecimalPos.Unsigned.to_uint_nonzero p) as Hz.
  assert (Hh : Pos.to_uint p = Decimal.nzhead (Pos.to_uint p)).
  { unfold Decimal.unorm in Hn.
    destruct (Decimal.nzhead (Pos.to_uint p)); congruence. }
  pose proof (DecimalFacts.nzhead_nonzero (Pos.to_uint p)) as Hd.
  rewrite <- Hh in Hd.
  destruct (Pos.to_uint p) as [|l|l|l|l|l|l|l|l|l|l] eqn:E;
    [discriminate Hv | exfalso; now apply (Hd l) |..].
  all: cbn [Pos.of_uint] in Hv; injection Hv as Hv; rewrite <- Hv;
    cbn [Decimal.nb_digits]; rewrite Nat2Z.inj_succ;
    replace (Z.succ (Z.of_nat (Decimal.nb_digits l)) - 1)
      with (Z.of_nat (Decimal.nb_digits l)) by lia;
    etransitivity; [|apply of_uint_acc_lower];
    pose proof (Z.pow_nonneg 10 (Z.of_nat (Decimal.nb_digits l))); nia.
Qed.

Lemma to_uint_few_digits (p : positive) :
  Z.pos p < 10 ^ Z.of_nat int_max_str_digits ->
  (Decimal.nb_digits (Pos.to_uint p) <= int_max_str_digits)%nat.
Proof.
  generalize int_max_str_digits. intros m H.
  pose proof (to_uint_digits p) as Hd.
  destruct (Nat.le_gt_cases (Decimal.nb_digits (Pos.to_uint p)) m) as [Hle | Hgt];
    [exact Hle | exfalso].
  assert (10 ^ Z.of_nat m <= 10 ^ (Z.of_nat (Decimal.nb_digits (Pos.to_uint p)) - 1)).
  { apply Z.pow_le_mono_r; lia. }
  lia.
Qed.

Lemma digit_ascii (c : ascii) : is_digit c = true -> (nat_of_ascii c < 127)%nat.
Proof. intros H. apply digit_bounds in H. lia. Qed.

Lemma py_int_unsigned (l : Decimal.uint) :
  l <> Decimal.Nil ->
  (Decimal.nb_digits l <= int_max_str_digits)%nat ->
  py_int (NilEmpty.string_of_uint l) = Some (Z.of_uint l).
Proof.
  intros H Hm. unfold py_int.
  rewrite ascii_code_points
    by apply (Forall_impl _ digit_ascii), uint_chars_digits.
  rewrite strip_id by apply (Forall_impl _ digit_not_space), uint_chars_digits.
  rewrite (filter_all _ _ (uint_chars_digits l)), uint_chars_length.
  apply Nat.ltb_ge in Hm. rewrite Hm.
  rewrite <- (digits_value_first l H).
  destruct l; [contradiction|..]; reflexivity.
Qed.

Lemma py_int_negative (l : Decimal.uint) :
  l <> Decimal.Nil ->
  (Decimal.nb_digits l <= int_max_str_digits)%nat ->
  py_int (String "-" (NilEmpty.string_of_uint l)) = Some (- Z.of_uint l).
Proof.
  intros H Hm. unfold py_int. cbn [list_ascii_of_string].
  rewrite ascii_code_points.
  2:{ constructor; [vm_compute; lia|].
      apply (Forall_impl _ digit_ascii), uint_chars_digits. }
  rewrite strip_id.
  2:{ constructor; [reflexivity|].
      apply (Forall_impl _ digit_not_space), uint_chars_digits. }
  cbn [filter]. change (is_digit "-") with false. cbv iota.
  rewrite (filter_all _ _ (uint_chars_digits l)), uint_chars_length.
  apply Nat.ltb_ge in Hm. rewrite Hm.
  now rewrite (digits_value_first l H).
Qed.

(** [int(str(n))] is [n], for a number within the digit limit of [int()]. *)
Lemma py_int_str_of_int (n : Z) :
  Z.abs n < 10 ^ Z.of_nat int_max_str_digits -> py_int (str_of_int n) = Some n.
Proof.
  intros Hm.
  unfold str_of_int. destruct n as [|p|p]; [reflexivity|..];
    cbn [Z.to_int NilZero.string_of_int NilZero.string_of_uint];
    pose proof (DecimalPos.Unsigned.to_uint_nonnil p) as Hn;
    pose proof (DecimalPos.Unsigned.of_to p) as Hv;
    pose proof (to_uint_few_digits p Hm) as Hd.
  - replace (NilZero.string_of_uint (Pos.to_uint p))
      with (NilEmpty.string_of_uint (Pos.to_uint p))
      by (destruct (Pos.to_uint p); [contradiction|..]; reflexivity).
    rewrite (py_int_unsigned _ Hn Hd). unfold Z.of_uint. now rewrite Hv.
  - replace (NilZero.string_of_uint (Pos.to_uint p))
      with (NilEmpty.string_of_uint (Pos.to_uint p))
      by (destruct (Pos.to_uint p); [contradiction|..]; reflexivity).
    rewrite (py_int_negative _ Hn Hd). unfold Z.of_uint. now rewrite Hv.
Qed.

(** [int()] on text that is not plain decimal: blanks and digits of other
    scripts count, the separators 0x1C to 0x1F do not. *)
Example py_int_cases :
  py_int " 5 " = Some 5 /\
  py_int "+7" = Some 7 /\
  py_int "-0" = Some 0 /\
  py_int "1_0" = Some 10 /\
  py_int "1__0" = None /\
  py_int "٥" = Some 5 /\
  py_int "٣_٤" = Some 34 /\
  py_int "５" = Some 5 /\
  py_int (String (ascii_of_nat 28) "5") = None /\
  py_int (String "5" (String (ascii_of_nat 0) "")) = None /\
  py_int (String (ascii_of_nat 11) (String "5" (String (ascii_of_nat 12) ""))) = Some 5 /\
  py_int "²" = None /\
  py_int "" = None.
Proof. vm_compute. repeat split. Qed.

Lemma int64_within_limit (n : Z) :
  int64 n = true -> Z.abs n < 10 ^ Z.of_nat int_max_str_digits.
Proof.
  unfold int64. intros H. apply andb_true_iff in H as [H1 H2].
  apply Z.leb_le in H1. apply Z.ltb_lt in H2.
  apply Z.le_lt_trans with (2 ^ 63); [lia|].
  apply Z.lt_le_trans with (10 ^ 19); [reflexivity|].
  apply Z.pow_le_mono_r; [lia|]. unfold int_max_str_digits. lia.
Qed.

(** ** [split] *)

Lemma str_split_nonempty (sep : ascii) (s : string) : str_split sep s <> [].
Proof.
  destruct s as [|c s]; simpl; [discriminate|].
  destruct (Ascii.eqb c sep); [discriminate|].
  destruct (str_split sep s); discriminate.
Qed.

Lemma str_split_no_sep (sep : ascii) (s : string) :
  has_char sep s = false -> str_split sep s = [s].
Proof.
  unfold has_char. induction s as [|c s IH]; simpl; [reflexivity|].
  intros H. apply orb_false_iff in H as [Hc Hs].
  rewrite Ascii.eqb_sym in Hc. rewrite Hc, (IH Hs). reflexivity.
Qed.

Lemma str_split_app (sep : ascii) (pre rest : string) :
  has_char sep pre = false ->
  str_split sep (pre ++ String sep rest) = pre :: str_split sep rest.
Proof.
  unfold has_char. induction pre as [|c pre IH]; simpl.
  - intros _. now rewrite Ascii.eqb_refl.
  - intros H. apply orb_false_iff in H as [Hc Hs].
    rewrite Ascii.eqb_sym in Hc. rewrite Hc, (IH Hs). reflexivity.
Qed.

Lemma prefix_app (p s : string) :
  prefix p s = true -> exists r, s = (p ++ r)%string.
Proof.
  revert s. induction p as [|c p IH]; intros s H.
  - now exists s.
  - destruct s as [|c' s]; simpl in H; [discriminate|].
    destruct (ascii_dec c c') as [<-|]; [|discriminate].
    destruct (IH s H) as [r ->]. now exists r.
Qed.

Lemma str_of_int_chars (n : Z) :
  Forall (fun c => is_digit c = true \/ c = "-"%char) (list_ascii_of_string (str_of_int n)).
Proof.
  assert (U : forall l, Forall (fun c => is_digit c = true \/ c = "-"%char)
                               (list_ascii_of_string (NilZero.string_of_uint l))).
  { intros l. destruct l; try (apply (Forall_impl _ (fun c H => or_introl H)),
                                (uint_chars_digits (_ l))).
    repeat constructor. }
  unfold str_of_int. destruct n; cbn [Z.to_int NilZero.string_of_int]; try apply U.
  cbn [list_ascii_of_string]. constructor; [now right | apply U].
Qed.

Lemma str_of_int_no_underscore (n : Z) : has_char "_" (str_of_int n) = false.
Proof.
  unfold has_char. pose proof (str_of_int_chars n) as H.
  induction H as [|c cs Hc _ IH]; cbn [existsb]; [reflexivity|].
  rewrite IH, orb_false_r.
  destruct (Ascii.eqb "_" c) eqn:E; [|reflexivity].
  apply Ascii.eqb_eq in E. subst c.
  destruct Hc as [Hc | Hc]; [vm_compute in Hc|]; discriminate Hc.
Qed.

Lemma parse_course_id_callback (n : Z) :
  Z.abs n < 10 ^ Z.of_nat int_max_str_digits ->
  parse_course_id ("course_" ++ str_of_int n) = Some n.
Proof.
  intros Hm. unfold parse_course_id.
  change ("course_" ++ str_of_int n)%string
    with ("course" ++ String "_" (str_of_int n))%string.
  rewrite str_split_app by reflexivity.
  rewrite (str_split_no_sep _ _ (str_of_int_no_underscore n)).
  now apply py_int_str_of_int.
Qed.



(** ** The catalogue *)

Section UniqueKey.
Context {A : Type} (key : A -> Z).

Lemma find_unique (l : list A) (a : A) :
  NoDup (map key l) -> In a l -> find (fun x => key x =? key a) l = Some a.
Proof.
  induction l as [|x l IH]; simpl; [tauto|].
  intros Hnd Hin. inversion Hnd as [|? ? Hx Hl]; subst.
  destruct Hin as [-> | Hin]; [now rewrite Z.eqb_refl|].
  destruct (key x =? key a) eqn:E; [|auto].
  apply Z.eqb_eq in E. exfalso. apply Hx. rewrite E. now apply in_map.
Qed.

Lemma find_absent (l : list A) (k : Z) :
  ~ In k (map key l) -> find (fun x => key x =? k) l = None.
Proof.
  induction l as [|x l IH]; simpl; [reflexivity|].
  intros H. destruct (key x =? k) eqn:E.
  - apply Z.eqb_eq in E. tauto.
  - apply IH. tauto.
Qed.

End UniqueKey.

Lemma NoDup_app_disjoint {A : Type} (l1 l2 : list A) (x : A) :
  NoDup (l1 ++ l2) -> In x l1 -> ~ In x l2.
Proof.
  induction l1 as [|y l1 IH]; simpl; [tauto|].
  intros Hnd [-> | Hin] H2; inversion Hnd as [|? ? Hy Hl]; subst.
  - apply Hy. apply in_or_app. now right.
  - now apply (IH Hl Hin).
Qed.

Lemma find_course_in cats id c :
  find_course cats id = Some c -> In c (flat_map snd cats) /\ co_id c = id.
Proof.
  induction cats as [|[k category] cats IH]; simpl; [discriminate|].
  destruct (find _ category) as [c'|] eqn:E.
  - intros H. inversion H; subst c'. apply find_some in E as [Hin Hid].
    apply Z.eqb_eq in Hid. split; [apply in_or_app; now left | exact Hid].
  - intros H. destruct (IH H). split; [apply in_or_app; now right | assumption].
Qed.

Lemma find_course_unique cats c :
  NoDup (map co_id (flat_map snd cats)) -> In c (flat_map snd cats) ->
  find_course cats (co_id c) = Some c.
Proof.
  induction cats as [|[k category] cats IH]; simpl; [tauto|].
  rewrite map_app. intros Hnd Hin.
  apply in_app_or in Hin as [Hin | Hin].
  - rewrite (find_unique co_id category c); [reflexivity| |exact Hin].
    now apply NoDup_app_remove_r in Hnd.
  - rewrite (find_absent co_id category (co_id c)).
    + apply IH; [now apply NoDup_app_remove_l in Hnd | exact Hin].
    + intros H. apply (NoDup_app_disjoint _ _ _ Hnd H). now apply in_map.
Qed.

Lemma dict_get_in {V : Type} (key : string) (dict : list (string * list V)) (x : V) :
  In x (dict_get key dict []) -> In x (flat_map snd dict).
Proof.
  induction dict as [|[k v] dict IH]; simpl; [tauto|].
  destruct (String.eqb key k); intros H; apply in_or_app; auto.
Qed.

Lemma COURSES_DATA_ids : NoDup (map co_id (flat_map snd COURSES_DATA)).
Proof. vm_compute. repeat constructor; simpl; intuition discriminate. Qed.

Lemma COURSES_DATA_small_ids (c : course) :
  In c (flat_map snd COURSES_DATA) ->
  Z.abs (co_id c) < 10 ^ Z.of_nat int_max_str_digits.
Proof.
  assert (H : forallb (fun c => int64 (co_id c)) (flat_map snd COURSES_DATA) = true)
    by (vm_compute; reflexivity).
  intros Hin. apply (proj1 (forallb_forall _ _) H) in Hin.
  now apply int64_within_limit.
Qed.

Lemma COURSES_DATA_platforms (c : course) :
  In c (flat_map snd COURSES_DATA) ->
  dict_in (co_platform c) PARTNER_LINKS = true /\ has_char "_" (co_platform c) = false.
Proof.
  assert (H : forallb (fun c => dict_in (co_platform c) PARTNER_LINKS &&
                                negb (has_char "_" (co_platform c)))
                      (flat_map snd COURSES_DATA) = true) by (vm_compute; reflexivity).
  intros Hin. apply (proj1 (forallb_forall _ _) H) in Hin.
  apply andb_true_iff in Hin as [H1 H2]. apply negb_true_iff in H2. now split.
Qed.

(** ** Sums of counts *)

Lemma sum_permutation (l l' : list Z) :
  Permutation l l' -> fold_right Z.add 0 l = fold_right Z.add 0 l'.
Proof. induction 1; simpl; lia. Qed.

Lemma sum_counts_permutation {A : Type} (l l' : list (A * Z)) :
  Permutation l l' -> sum_counts l = sum_counts l'.
Proof. intros H. apply sum_permutation. now apply Permutation_map. Qed.

Section CountSums.
Context {A : Type} (dec : forall x y : A, {x = y} + {x <> y}).

Lemma sum_indicator (x : A) (l : list A) :
  NoDup l ->
  fold_right Z.add 0 (map (fun k => if dec x k then 1 else 0) l) =
  if in_dec dec x l then 1 else 0.
Proof.
  induction 1 as [|y l Hy Hl IH]; simpl; [reflexivity|]. rewrite IH.
  destruct (dec x y) as [<-|Hne].
  - destruct (in_dec dec x l); [contradiction|].
    destruct (dec x x); [reflexivity | congruence].
  - destruct (dec y x); [congruence|].
    destruct (in_dec dec x l); reflexivity.
Qed.

Lemma sum_count_occ (ks l : list A) :
  NoDup l -> incl ks l ->
  fold_right Z.add 0 (map (fun k => Z.of_nat (count_occ dec ks k)) l) =
  Z.of_nat (List.length ks).
Proof.
  intros Hl. induction ks as [|x ks IH]; intros Hincl.
  - simpl. clear. induction l as [|y l IH]; simpl; lia.
  - assert (Hx : In x l) by (apply Hincl; now left).
    assert (Hks : incl ks l) by (intros y Hy; apply Hincl; now right).
    specialize (IH Hks).
    rewrite (map_ext _ (fun k => Z.of_nat (count_occ dec ks k) + (if dec x k then 1 else 0))).
    + transitivity (fold_right Z.add 0 (map (fun k => Z.of_nat (count_occ dec ks k)) l) +
                    fold_right Z.add 0 (map (fun k => if dec x k then 1 else 0) l)).
      * clear. induction l; simpl; lia.
      * rewrite IH, (sum_indicator x l Hl).
        destruct (in_dec dec x l); [|contradiction]. simpl List.length. lia.
    + intros k. simpl. destruct (dec x k); lia.
Qed.

Lemma sum_counts_group_count (ks : list A) :
  sum_counts (group_count dec ks) = Z.of_nat (List.length ks).
Proof.
  unfold sum_counts, group_count. rewrite map_map. simpl.
  apply sum_count_occ; [apply NoDup_nodup|].
  intros x Hx. now apply nodup_In.
Qed.

End CountSums.

(** ** /start and the referral link *)

Lemma update_last_active_unregistered tid now d :
  ~ registered tid d -> snd (update_last_active tid now d) = d.
Proof.
  intros H. unfold update_last_active; simpl.
  rewrite (map_if_same _ _ _ (tid_test_false tid (users d) H)). now destruct d.
Qed.

Lemma or_else_empty (s : string) : or_else s "" = s.
Proof. unfold or_else. destruct (String.eqb_spec s ""); congruence. Qed.

Lemma start_command_store uid un fn ln args now stamp d :
  start_command uid un fn ln args now stamp d =
  snd (update_last_active uid now
         (if add_user_runs uid (referrer_of_args args) None
          then snd (insert_or_ignore_user uid un (or_else fn "Пользователь") ln
                      (gen_ref_code uid stamp) (referrer_of_args args) now d)
          else d)).
Proof.
  unfold start_command. cbv zeta. rewrite !or_else_empty.
  now rewrite update_user_activity_store, add_user_store.
Qed.


(** A /start from a user who is registered does what any other message
    does: the user's [last_active] becomes now.  The names sent with it are
    not stored, the referral argument changes nothing, whatever it is, and
    the referral code, the referrer and the counter stay as they are; no
    row is added to either table. *)
Theorem start_command_registered :
  forall (uid : Z) (un fn ln : string) (args : option string) (now : Z) (stamp : string)
         (d : db),
    registered uid d ->
    let d' := start_command uid un fn ln args now stamp d in
    users d' =
      map (fun v => if telegram_id v =? uid
                    then mk_user (u_id v) (telegram_id v) (username v) (first_name v)
                           (last_name v) (registered_at v) (clicks_count v)
                           (ref_code v) (referrer_id v) now
                    else v) (users d) /\
    clicks d' = clicks d /\
    seq_clicks d' = seq_clicks d.
Proof.
  intros uid un fn ln args now stamp d H. cbv zeta.
  rewrite start_command_store.
  destruct (add_user_runs uid (referrer_of_args args) None).
  - rewrite insert_registered_user by assumption. now repeat split.
  - now repeat split.
Qed.

Lemma start_command_registered_witness :
  let d' := start_command 42 "robert" "Robert" "B" (Some "ref7") 1700000900
              "1700000900.5" store_bob in
  users d' =
    map (fun v => if telegram_id v =? 42
                  then mk_user (u_id v) (telegram_id v) (username v) (first_name v)
                         (last_name v) (registered_at v) (clicks_count v)
                         (ref_code v) (referrer_id v) 1700000900
                  else v) (users store_bob) /\
  clicks d' = clicks store_bob /\
  seq_clicks d' = seq_clicks store_bob.
Proof.
  apply (start_command_registered 42 "robert" "Robert" "B" (Some "ref7") 1700000900
           "1700000900.5" store_bob).
  vm_compute. left. reflexivity.
Defined.



(** A sender without a first name is stored as "Пользователь". *)
Example start_command_no_first_name :
  map first_name (users (start_command 42 "" "" "" None 1700000000 "1700000000.25" empty_db))
  = ["Пользователь"].
Proof. vm_compute. reflexivity. Qed.

(** The link for a number that SQLite cannot hold, at a concrete input. *)
Example referral_link_too_large :
  ref_link "course_bot" (2 ^ 63) = "https://t.me/course_bot?start=ref9223372036854775808" /\
  start_command 77 "eve" "Eve" "" (Some "ref9223372036854775808") 1700000900
    "1700000900.5" store_bob = store_bob.
Proof. vm_compute. auto. Qed.

(** ** What the user is shown: [my_stats] and [partner_program] *)

Lemma get_user_stats_value d u :
  wf d -> In u (users d) ->
  result_of (run (get_user_stats (telegram_id u)) None d) =
  Returned (Some (mk_stats
    (mk_user_data u
       (Z.of_nat (List.length (nodup string_dec (map platform (clicks_of u d)))))
       (Z.of_nat (List.length (clicks_of u d))))
    (order_by_desc snd (group_count string_dec (map platform (clicks_of u d))))
    (firstn 5 (map (fun c => (platform c, clicked_at c))
                   (order_by_desc clicked_at (clicks_of u d)))))).
Proof.
  intros Hwf Hu. pose proof (clicks_joined_registered d u Hwf Hu) as Hj.
  destruct Hwf as (Hi & Ht & Hc).
  rewrite get_user_stats_result.
  unfold select_user_data, select_platforms_clicks, select_recent_clicks; simpl fst.
  rewrite (filter_by_key _ telegram_id u Ht Hu), Hj. reflexivity.
Qed.

Lemma touched_row_in tid now d u :
  In u (users d) -> telegram_id u = tid ->
  In (set_last_active now u) (users (snd (update_last_active tid now d))).
Proof.
  intros Hu E. unfold update_last_active; simpl.
  apply in_map_iff. exists u. split; [|exact Hu].
  subst tid. now rewrite Z.eqb_refl.
Qed.

(** On a store the bot has reached, the card that [my_stats] shows to a
    registered user is right: the number of clicks it prints, which it takes
    from [clicks_count], is the number of the user's rows in the ledger; the
    number of active platforms is the number of distinct platforms among
    them; the lines of the breakdown, ordered by descending count, add up to
    the number of clicks.  The store changes by the user's [last_active]
    only.  A user without a row gets the "nothing yet" text and is not
    registered by asking. *)
Theorem my_stats_figures :
  forall (d : db) (now : Z),
    reachable d ->
    (forall u : user_row,
        In u (users d) ->
        exists lines invited_by,
          my_stats (telegram_id u) now d =
            (snd (update_last_active (telegram_id u) now d),
             StatsCard (first_name u) (DATE (registered_at u)) (ref_code u)
               (Z.of_nat (List.length (clicks_of u d)))
               (Z.of_nat (List.length (nodup string_dec (map platform (clicks_of u d)))))
               lines invited_by) /\
          sum_counts lines = Z.of_nat (List.length (clicks_of u d)) /\
          List.length lines =
            List.length (nodup string_dec (map platform (clicks_of u d))) /\
          StronglySorted (desc snd) lines) /\
    (forall tid : Z, ~ registered tid d -> my_stats tid now d = (d, NoActivityYet)).
Proof.
  intros d now Hreach.
  pose proof (reachable_wf d Hreach) as Hwf.
  destruct (reachable_ledger d Hreach) as (_ & Hcnt).
  split.
  - intros u Hu.
    set (tid := telegram_id u).
    set (d1 := snd (update_last_active tid now d)).
    set (u1 := set_last_active now u).
    assert (Hwf1 : wf d1) by now apply wf_update_last_active.
    assert (Hu1 : In u1 (users d1)) by now apply touched_row_in.
    assert (Hc1 : clicks_of u1 d1 = clicks_of u d) by now apply clicks_of_same.
    set (groups := order_by_desc snd (group_count string_dec (map platform (clicks_of u d)))).
    exists (map (fun pc => (dict_get (fst pc) PLATFORM_NAMES (fst pc), snd pc)) groups).
    eexists.
    assert (Hperm : Permutation groups
                      (group_count string_dec (map platform (clicks_of u d))))
      by apply order_by_desc_perm.
    split; [|split; [|split]].
    + unfold my_stats. rewrite update_user_activity_store. simpl hits. cbv iota.
      fold tid d1.
      change tid with (telegram_id u1).
      rewrite (get_user_stats_value d1 u1 Hwf1 Hu1), Hc1.
      cbn [user ud_row platforms_clicks].
      fold groups. subst u1. cbn [first_name registered_at ref_code clicks_count
                                  referrer_id set_last_active].
      rewrite (Hcnt u Hu), (Permutation_length Hperm).
      unfold group_count at 1. rewrite length_map. reflexivity.
    + unfold sum_counts. rewrite map_map. cbn [snd].
      change (fold_right Z.add 0 (map (fun x => snd x) groups)) with (sum_counts groups).
      rewrite (sum_counts_permutation _ _ Hperm), sum_counts_group_count.
      now rewrite length_map.
    + rewrite length_map, (Permutation_length Hperm).
      unfold group_count. now rewrite length_map.
    + assert (Hs : StronglySorted (desc snd) groups) by apply order_by_desc_sorted.
      clear -Hs. induction Hs as [|x l Hs IH Hx]; simpl; constructor; [exact IH|].
      clear -Hx. induction Hx as [|y l Hy Hl IH]; simpl; constructor; auto.
  - intros tid H. unfold my_stats.
    rewrite update_user_activity_store. simpl hits. cbv iota.
    rewrite (update_last_active_unregistered tid now d H).
    rewrite get_user_stats_result. unfold select_user_data; simpl fst.
    now rewrite (filter_nil_iff _ _ (tid_test_false tid (users d) H)).
Qed.

Lemma my_stats_figures_witness :
  (forall u : user_row,
      In u (users store_bob_clicks) ->
      exists lines invited_by,
        my_stats (telegram_id u) 1700000900 store_bob_clicks =
          (snd (update_last_active (telegram_id u) 1700000900 store_bob_clicks),
           StatsCard (first_name u) (DATE (registered_at u)) (ref_code u)
             (Z.of_nat (List.length (clicks_of u store_bob_clicks)))
             (Z.of_nat (List.length
                (nodup string_dec (map platform (clicks_of u store_bob_clicks)))))
             lines invited_by) /\
        sum_counts lines = Z.of_nat (List.length (clicks_of u store_bob_clicks)) /\
        List.length lines =
          List.length (nodup string_dec (map platform (clicks_of u store_bob_clicks))) /\
        StronglySorted (desc snd) lines) /\
  (forall tid : Z, ~ registered tid store_bob_clicks ->
                   my_stats tid 1700000900 store_bob_clicks = (store_bob_clicks, NoActivityYet)).
Proof.
  apply (my_stats_figures store_bob_clicks 1700000900).
  unfold store_bob_clicks, store_bob.
  repeat apply reach_add_click. apply reach_add_user. apply reach_init.
Defined.

Example my_stats_bob :
  snd (my_stats 42 1700000900 store_bob_clicks) =
  StatsCard "Bob" 19675 "b6bae945" 3 2 [("Skillbox 🎓", 2); ("GeekBrains 👨‍💻", 1)] (Some 999).
Proof. vm_compute. reflexivity. Qed.

(** [partner_program] shows a registered user the referral code that the
    user's row has, the one assigned at registration, beside the link for
    the user's telegram id, and changes the user's [last_active] only.  A
    user without a row is shown the error text in place of a code, is still
    given a link, and is not registered. *)
Theorem partner_program_shows_stored_code :
  forall (d : db) (now : Z) (bot_username : string),
    wf d ->
    (forall u : user_row,
        In u (users d) ->
        partner_program (telegram_id u) now bot_username d =
        (snd (update_last_active (telegram_id u) now d),
         (ref_link bot_username (telegram_id u), ref_code u))) /\
    (forall tid : Z,
        ~ registered tid d ->
        partner_program tid now bot_username d =
        (d, (ref_link bot_username tid, "Ошибка"))).
Proof.
  intros d now bot Hwf. split.
  - intros u Hu. unfold partner_program.
    rewrite update_user_activity_store. simpl hits. cbv iota.
    set (d1 := snd (update_last_active (telegram_id u) now d)).
    assert (Hwf1 : wf d1) by now apply wf_update_last_active.
    assert (Hu1 : In (set_last_active now u) (users d1)) by now apply touched_row_in.
    change (telegram_id u) with (telegram_id (set_last_active now u)) at 2.
    now rewrite (get_user_stats_value d1 _ Hwf1 Hu1).
  - intros tid H. unfold partner_program.
    rewrite update_user_activity_store. simpl hits. cbv iota.
    rewrite (update_last_active_unregistered tid now d H).
    rewrite get_user_stats_result. unfold select_user_data; simpl fst.
    now rewrite (filter_nil_iff _ _ (tid_test_false tid (users d) H)).
Qed.

Lemma partner_program_shows_stored_code_witness :
  (forall u : user_row,
      In u (users store_bob) ->
      partner_program (telegram_id u) 1700000900 "course_bot" store_bob =
      (snd (update_last_active (telegram_id u) 1700000900 store_bob),
       (ref_link "course_bot" (telegram_id u), ref_code u))) /\
  (forall tid : Z,
      ~ registered tid store_bob ->
      partner_program tid 1700000900 "course_bot" store_bob =
      (store_bob, (ref_link "course_bot" tid, "Ошибка"))).
Proof.
  apply (partner_program_shows_stored_code store_bob 1700000900 "course_bot").
  apply wf_store_bob.
Defined.

(** ** The catalogue handlers *)

Lemma show_course_detail_card (user : Z) (now : Z) (d : db) (c : course) :
  In c (flat_map snd COURSES_DATA) ->
  exists pn cm pl kb,
    snd (show_course_detail user (course_callback c) now d) = CourseCard c pn cm pl kb.
Proof.
  intros Hin. unfold show_course_detail, course_callback.
  rewrite (parse_course_id_callback _ (COURSES_DATA_small_ids c Hin)),
    (find_course_unique _ c COURSES_DATA_ids Hin).
  simpl snd. eauto.
Qed.

(** Every course of a category gets one button in the list that
    [show_category] sends, after which comes the back button; the callback
    data of the button, handed to [show_course_detail], is parsed back to the
    id of the course and resolves to that very course, for whichever user
    and on whichever store. *)
Theorem show_category_buttons_resolve :
  forall (from_user : Z) (category title : string) (now : Z) (d : db) (c : course),
    In c (dict_get category COURSES_DATA []) ->
    exists text kb,
      snd (show_category from_user category title now d) = CategoryList text kb /\
      List.length kb = S (List.length (dict_get category COURSES_DATA [])) /\
      (exists label, In [CallbackButton label (course_callback c)] kb) /\
      parse_course_id (course_callback c) = Some (co_id c) /\
      forall (user now' : Z) (d' : db),
      exists pn cm pl kb',
        snd (show_course_detail user (course_callback c) now' d') = CourseCard c pn cm pl kb'.
Proof.
  intros from_user category title now d c Hin.
  unfold show_category.
  remember (dict_get category COURSES_DATA []) as courses eqn:E.
  destruct courses as [|c0 cs]; [contradiction|].
  cbn [snd]. do 2 eexists. split; [reflexivity|]. split; [|split; [|split]].
  - rewrite length_app, length_map. simpl. lia.
  - eexists. apply in_or_app. left.
    apply in_map_iff. exists c. split; [reflexivity | exact Hin].
  - apply parse_course_id_callback, COURSES_DATA_small_ids,
      (dict_get_in category COURSES_DATA c).
    rewrite <- E. exact Hin.
  - intros user now' d'. apply show_course_detail_card.
    apply (dict_get_in category COURSES_DATA c). rewrite <- E. exact Hin.
Qed.

Lemma show_category_buttons_resolve_witness :
  match find_course COURSES_DATA 5 with
  | Some c =>
      exists text kb,
        snd (show_category 42 "design" "title" 1700000900 store_bob) = CategoryList text kb /\
        List.length kb = S (List.length (dict_get "design" COURSES_DATA [])) /\
        (exists label, In [CallbackButton label (course_callback c)] kb) /\
        parse_course_id (course_callback c) = Some (co_id c) /\
        forall (user now' : Z) (d' : db),
        exists pn cm pl kb',
          snd (show_course_detail user (course_callback c) now' d') = CourseCard c pn cm pl kb'
  | None => False
  end.
Proof.
  destruct (find_course COURSES_DATA 5) as [c|] eqn:E.
  - apply (show_category_buttons_resolve 42 "design" "title" 1700000900 store_bob c).
    vm_compute in E. injection E as <-. vm_compute. left. reflexivity.
  - vm_compute in E. discriminate E.
Defined.

(** When a registered user opens the card of a catalogue course,
    [show_course_detail] leaves exactly one new row in the ledger, for the
    user's row, the platform of the course and the id of the course, adds 1
    to the user's [clicks_count] and sets the user's [last_active] to now;
    no other row changes.  Every course of the catalogue is on a platform
    of [PARTNER_LINKS], so the click is never refused for its platform. *)
Theorem show_course_detail_records_click :
  forall (d : db) (u : user_row) (data : string) (now id : Z) (c : course),
    wf d -> In u (users d) ->
    parse_course_id data = Some id ->
    find_course COURSES_DATA id = Some c ->
    let d' := fst (show_course_detail (telegram_id u) data now d) in
    co_id c = id /\
    dict_in (co_platform c) PARTNER_LINKS = true /\
    clicks d' =
      clicks d ++ [mk_click (next_rowid (seq_clicks d) (map c_id (clicks d)))
                            (u_id u) (co_platform c) (Some id) now] /\
    users d' =
      map (fun v => if telegram_id v =? telegram_id u
                    then mk_user (u_id v) (telegram_id v) (username v) (first_name v)
                           (last_name v) (registered_at v) (clicks_count v + 1)
                           (ref_code v) (referrer_id v) now
                    else v) (users d).
Proof.
  intros d u data now id c Hwf Hu Hparse Hfind d'. subst d'.
  destruct (find_course_in _ _ _ Hfind) as [Hin Hid].
  destruct (COURSES_DATA_platforms c Hin) as [Hp _].
  split; [exact Hid|]. split; [exact Hp|].
  unfold show_course_detail. rewrite Hparse, Hfind. cbn [fst].
  rewrite update_user_activity_store. simpl hits. cbv iota.
  set (d1 := snd (update_last_active (telegram_id u) now d)).
  assert (Hwf1 : wf d1) by now apply wf_update_last_active.
  assert (Hu1 : In (set_last_active now u) (users d1)) by now apply touched_row_in.
  rewrite add_click_store, Hp. unfold select_user_id; cbn [fst].
  destruct Hwf1 as (Hi1 & Ht1 & Hc1).
  pose proof (find_by_key _ telegram_id _ Ht1 Hu1) as Hf.
  cbn [telegram_id set_last_active] in Hf. rewrite Hf. cbn [option_map u_id set_last_active].
  simpl hits. cbv iota. split; [reflexivity|].
  unfold update_click_counter, insert_click, d1, update_last_active. simpl.
  rewrite map_map. apply map_ext_in. intros v Hv.
  pose proof (same_row_tests d u v Hwf Hu Hv) as Hsame.
  destruct (telegram_id v =? telegram_id u).
  - cbn [u_id set_last_active]. now rewrite Hsame.
  - now rewrite Hsame.
Qed.

Lemma show_course_detail_records_click_witness :
  match find_course COURSES_DATA 5 with
  | Some c =>
      let u := mk_user 1 42 "bob" "Bob" "" 1700000000 0 "b6bae945" (Some 999) 1700000000 in
      let d' := fst (show_course_detail 42 "course_5" 1700000020 store_bob) in
      co_id c = 5 /\
      dict_in (co_platform c) PARTNER_LINKS = true /\
      clicks d' =
        clicks store_bob ++
        [mk_click (next_rowid (seq_clicks store_bob) (map c_id (clicks store_bob)))
                  (u_id u) (co_platform c) (Some 5) 1700000020] /\
      users d' =
        map (fun v => if telegram_id v =? 42
                      then mk_user (u_id v) (telegram_id v) (username v) (first_name v)
                             (last_name v) (registered_at v) (clicks_count v + 1)
                             (ref_code v) (referrer_id v) 1700000020
                      else v) (users store_bob)
  | None => False
  end.
Proof.
  destruct (find_course COURSES_DATA 5) as [c|] eqn:E.
  - apply (show_course_detail_records_click store_bob
             (mk_user 1 42 "bob" "Bob" "" 1700000000 0 "b6bae945" (Some 999) 1700000000)
             "course_5" 1700000020 5 c).
    + apply wf_store_bob.
    + vm_compute. left. reflexivity.
    + vm_compute. reflexivity.
    + exact E.
  - vm_compute in E. discriminate E.
Defined.

(** [show_course_detail] leaves the store as it was, [last_active]
    included, when the callback data carries no number after its first
    underscore, when no course of the catalogue has the number, and when the
    user has no row: such a user still gets the card, but no click is
    recorded. *)
Theorem show_course_detail_unchanged :
  forall (from_user : Z) (data : string) (now : Z) (d : db),
    (parse_course_id data = None ->
     show_course_detail from_user data now d = (d, CourseLoadError)) /\
    (forall id, parse_course_id data = Some id -> find_course COURSES_DATA id = None ->
                show_course_detail from_user data now d = (d, CourseNotFound)) /\
    (~ registered from_user d -> fst (show_course_detail from_user data now d) = d) /\
    (~ registered from_user d ->
     forall id c, parse_course_id data = Some id -> find_course COURSES_DATA id = Some c ->
                  exists pn cm pl kb,
                    snd (show_course_detail from_user data now d) = CourseCard c pn cm pl kb).
Proof.
  intros from_user data now d. unfold show_course_detail.
  split; [intros ->; reflexivity|].
  split; [intros id -> ->; reflexivity|].
  split.
  - intros H. destruct (parse_course_id data) as [id|]; [|reflexivity].
    destruct (find_course COURSES_DATA id) as [c|]; [|reflexivity].
    cbn [fst]. rewrite update_user_activity_store. simpl hits. cbv iota.
    rewrite (update_last_active_unregistered from_user now d H).
    rewrite add_click_store. destruct (dict_in (co_platform c) PARTNER_LINKS); [|reflexivity].
    unfold select_user_id; simpl fst.
    now rewrite (find_none_unregistered from_user (users d) H).
  - intros H id c -> ->. cbn [snd]. eauto.
Qed.

(** Callback data with the id in digits of another script: the card of
    course 5 is shown and the click is recorded. *)
Example show_course_detail_arabic_digit :
  parse_course_id "course_٥" = Some 5 /\
  clicks (fst (show_course_detail 42 "course_٥" 1700000020 store_bob)) =
    [mk_click 1 1 "skillbox" (Some 5) 1700000020].
Proof. vm_compute. auto. Qed.

Lemma show_course_detail_unchanged_witness :
  fst (show_course_detail 43 "course_5" 1700000020 store_bob) = store_bob.
Proof.
  apply (show_course_detail_unchanged 43 "course_5" 1700000020 store_bob).
  vm_compute. intros [E | []]. discriminate E.
Defined.

Lemma firstn_In {A : Type} (n : nat) (l : list A) (x : A) :
  In x (firstn n l) -> In x l.
Proof.
  revert l. induction n as [|n IH]; intros [|y l]; simpl; try tauto.
  intros [-> | H]; auto.
Qed.

Lemma similar_data_platform (data : string) :
  prefix "similar_" data = true ->
  exists p, nth_error (str_split "_" data) 1 = Some p.
Proof.
  intros H. apply prefix_app in H as [r ->].
  change ("similar_" ++ r)%string with ("similar" ++ String "_" r)%string.
  rewrite str_split_app by reflexivity. simpl.
  pose proof (str_split_nonempty "_" r) as Hne.
  destruct (str_split "_" r) as [|p ps]; [contradiction | eauto].
Qed.

(** [show_similar_courses] on callback data that begins with "similar_",
    as the dispatcher hands it over: taking the second part of the data
    never fails; a platform that is no key of [PARTNER_LINKS] is refused;
    and a list, when one is sent, has between one and five course buttons
    followed by the back button, each for a course of the catalogue on the
    platform asked for, with callback data that [show_course_detail] parses
    back to the id of that course and resolves to it. *)
Theorem show_similar_courses_buttons :
  forall data : string,
    prefix "similar_" data = true ->
    exists p reply,
      nth_error (str_split "_" data) 1 = Some p /\
      show_similar_courses data = Some reply /\
      (dict_in p PARTNER_LINKS = false -> reply = PlatformNotFound) /\
      forall text kb,
        reply = SimilarList text kb ->
        exists courses,
          kb = map (fun c => [CallbackButton (co_title c) (course_callback c)]) courses
               ++ [[CallbackButton "🔙 Назад" "menu_back"]] /\
          courses <> [] /\ (List.length courses <= 5)%nat /\
          forall c, In c courses ->
                    co_platform c = p /\
                    dict_in p PARTNER_LINKS = true /\
                    parse_course_id (course_callback c) = Some (co_id c) /\
                    find_course COURSES_DATA (co_id c) = Some c.
Proof.
  intros data H. destruct (similar_data_platform data H) as [p Hp].
  unfold show_similar_courses. rewrite Hp.
  exists p. eexists. split; [reflexivity|]. split; [reflexivity|]. split.
  - intros ->. reflexivity.
  - intros text kb. destruct (dict_in p PARTNER_LINKS) eqn:Hk; [|discriminate].
    cbn [negb].
    set (similar := filter (fun c => String.eqb (co_platform c) p) (flat_map snd COURSES_DATA)).
    destruct similar as [|c0 cs] eqn:Es; [discriminate|].
    intros E. injection E as _ <-.
    exists (firstn 5 (c0 :: cs)). split; [reflexivity|]. split; [discriminate|].
    split; [apply firstn_le_length|].
    intros c Hc. apply firstn_In in Hc. rewrite <- Es in Hc.
    apply filter_In in Hc as [Hin Hpl]. apply String.eqb_eq in Hpl.
    split; [exact Hpl|]. split; [reflexivity|].
    split; [now apply parse_course_id_callback, COURSES_DATA_small_ids|].
    now apply find_course_unique; [apply COURSES_DATA_ids|].
Qed.

Lemma show_similar_courses_buttons_witness :
  exists p reply,
    nth_error (str_split "_" "similar_skillbox") 1 = Some p /\
    show_similar_courses "similar_skillbox" = Some reply /\
    (dict_in p PARTNER_LINKS = false -> reply = PlatformNotFound) /\
    forall text kb,
      reply = SimilarList text kb ->
      exists courses,
        kb = map (fun c => [CallbackButton (co_title c) (course_callback c)]) courses
             ++ [[CallbackButton "🔙 Назад" "menu_back"]] /\
        courses <> [] /\ (List.length courses <= 5)%nat /\
        forall c, In c courses ->
                  co_platform c = p /\
                  dict_in p PARTNER_LINKS = true /\
                  parse_course_id (course_callback c) = Some (co_id c) /\
                  find_course COURSES_DATA (co_id c) = Some c.
Proof.
  apply (show_similar_courses_buttons "similar_skillbox"). reflexivity.
Defined.

Example show_similar_courses_skillbox :
  exists text,
    show_similar_courses "similar_skillbox" =
    Some (SimilarList text
            [[CallbackButton "Fullstack-разработчик на JavaScript" "course_2"];
             [CallbackButton "Разработчик на C# и .NET" "course_4"];
             [CallbackButton "UX/UI-дизайнер с нуля до PRO" "course_5"];
             [CallbackButton "SMM-специалист PRO" "course_8"];
             [CallbackButton "🔙 Назад" "menu_back"]]).
Proof. eexists. vm_compute. reflexivity. Qed.

(** The card that [show_course_detail] sends for a catalogue course has
    three rows of buttons; the second is the "similar courses" button, and
    its callback data is "similar_" followed by the platform of the course.
    [show_similar_courses] reads the platform back out of that data and
    answers with a list, never with a refusal, and the list has a button for
    the course itself. *)
Theorem similar_button_lists_the_course :
  forall (c : course) (from_user now : Z) (d : db),
    In c (flat_map snd COURSES_DATA) ->
    exists pn cm pl data,
      snd (show_course_detail from_user (course_callback c) now d) =
        CourseCard c pn cm pl
          [[UrlButton "🌐 Перейти на сайт курса" pl];
           [CallbackButton "📋 Похожие курсы" data];
           [CallbackButton "🔙 Назад к категориям" "category_back";
            CallbackButton "🏠 В меню" "menu_back"]] /\
      data = ("similar_" ++ co_platform c)%string /\
      nth_error (str_split "_" data) 1 = Some (co_platform c) /\
      exists text kb,
        show_similar_courses data = Some (SimilarList text kb) /\
        In [CallbackButton (co_title c) (course_callback c)] kb.
Proof.
  intros c from_user now d Hin. destruct (COURSES_DATA_platforms c Hin) as [Hk Hu].
  exists (dict_get (co_platform c) PLATFORM_NAMES (co_platform c)),
         (dict_get (co_platform c) COMMISSIONS "15-30%"),
         (dict_get (co_platform c) PARTNER_LINKS "#"),
         ("similar_" ++ co_platform c)%string.
  split.
  { unfold show_course_detail, course_callback.
    rewrite (parse_course_id_callback _ (COURSES_DATA_small_ids c Hin)),
      (find_course_unique _ c COURSES_DATA_ids Hin).
    reflexivity. }
  split; [reflexivity|].
  assert (Hp : nth_error (str_split "_" ("similar_" ++ co_platform c)) 1
               = Some (co_platform c)).
  { change ("similar_" ++ co_platform c)%string
      with ("similar" ++ String "_" (co_platform c))%string.
    rewrite str_split_app by reflexivity. now rewrite (str_split_no_sep _ _ Hu). }
  split; [exact Hp|].
  unfold show_similar_courses. rewrite Hp, Hk. cbn [negb].
  set (similar := filter (fun c' => String.eqb (co_platform c') (co_platform c))
                         (flat_map snd COURSES_DATA)).
  assert (Hc : In c similar).
  { apply filter_In. split; [exact Hin | apply String.eqb_refl]. }
  assert (Hlen : (List.length similar <= 5)%nat).
  { assert (F : forallb (fun c' =>
                  (List.length (filter (fun c'' => String.eqb (co_platform c'') (co_platform c'))
                                       (flat_map snd COURSES_DATA)) <=? 5)%nat)
                  (flat_map snd COURSES_DATA) = true) by (vm_compute; reflexivity).
    apply (proj1 (forallb_forall _ _) F) in Hin. now apply Nat.leb_le in Hin. }
  destruct similar as [|c0 cs] eqn:Es; [contradiction|].
  do 2 eexists. split; [reflexivity|].
  rewrite (firstn_all2 _ Hlen). apply in_or_app. left.
  apply in_map_iff. exists c. split; [reflexivity | exact Hc].
Qed.

Lemma similar_button_lists_the_course_witness :
  match find_course COURSES_DATA 5 with
  | Some c =>
      exists pn cm pl data,
        snd (show_course_detail 42 (course_callback c) 1700000020 store_bob) =
          CourseCard c pn cm pl
            [[UrlButton "🌐 Перейти на сайт курса" pl];
             [CallbackButton "📋 Похожие курсы" data];
             [CallbackButton "🔙 Назад к категориям" "category_back";
              CallbackButton "🏠 В меню" "menu_back"]] /\
        data = ("similar_" ++ co_platform c)%string /\
        nth_error (str_split "_" data) 1 = Some (co_platform c) /\
        exists text kb,
          show_similar_courses data = Some (SimilarList text kb) /\
          In [CallbackButton (co_title c) (course_callback c)] kb
  | None => False
  end.
Proof.
  destruct (find_course COURSES_DATA 5) as [c|] eqn:E.
  - apply (similar_button_lists_the_course c 42 1700000020 store_bob).
    now apply (find_course_in _ _ _ E).
  - vm_compute in E. discriminate E.
Defined.

(** ** The shape of a referral code *)

Lemma hex_digit_is_hex (n : Z) : is_hex_char (MD5.hex_digit n) = true.
Proof.
  unfold MD5.hex_digit. generalize (Z.to_nat n) as k. intros k.
  do 16 (destruct k as [|k]; [reflexivity|]). destruct k; reflexivity.
Qed.

Lemma hex_of_bytes_length (bs : list Z) :
  String.length (MD5.hex_of_bytes bs) = (2 * List.length bs)%nat.
Proof. induction bs as [|b bs IH]; simpl; [reflexivity|]. rewrite IH. lia. Qed.

Lemma hex_of_bytes_chars (bs : list Z) :
  Forall (fun c => is_hex_char c = true) (list_ascii_of_string (MD5.hex_of_bytes bs)).
Proof.
  induction bs as [|b bs IH]; cbn [MD5.hex_of_bytes list_ascii_of_string]; [constructor|].
  constructor; [apply hex_digit_is_hex|]. constructor; [apply hex_digit_is_hex | exact IH].
Qed.

Lemma digest_length (msg : list Z) : List.length (MD5.digest msg) = 16%nat.
Proof.
  unfold MD5.digest.
  destruct (MD5.process_blocks _ _ _) as [[[a b] c] d]. reflexivity.
Qed.

Lemma substring_length (n : nat) (s : string) :
  (n <= String.length s)%nat -> String.length (substring 0 n s) = n.
Proof.
  revert s. induction n as [|n IH]; intros [|c s] H; simpl in *; try lia.
  rewrite IH; lia.
Qed.

Lemma substring_chars (P : ascii -> Prop) (n : nat) (s : string) :
  Forall P (list_ascii_of_string s) ->
  Forall P (list_ascii_of_string (substring 0 n s)).
Proof.
  revert s. induction n as [|n IH]; intros [|c s] H; simpl; try constructor.
  - now inversion H.
  - apply IH. now inversion H.
Qed.

(** Whatever the telegram id and the time, the referral code that
    [add_user] generates is a text of exactly 8 characters, each one of
    0-9 and a-f. *)
Theorem gen_ref_code_shape :
  forall (telegram_id : Z) (stamp : string),
    String.length (gen_ref_code telegram_id stamp) = 8%nat /\
    Forall (fun c => is_hex_char c = true)
           (list_ascii_of_string (gen_ref_code telegram_id stamp)).
Proof.
  intros tid stamp. unfold gen_ref_code, MD5.hexdigest. split.
  - apply substring_length. rewrite hex_of_bytes_length, digest_length. lia.
  - apply substring_chars, hex_of_bytes_chars.
Qed.

(** ** [add_user] under a failing store *)



Example add_user_commit_fails :
  run (add_user 42 "bob" "Bob" "" None 1700000000 "1700000000.25") (Some 1%nat) empty_db =
  (Returned None, empty_db, [(INFO, NewUser 42 "bob"); (ERROR, AddUserFailed)]).
Proof. vm_compute. reflexivity. Qed.

(** ** The administrator's panel *)

Lemma nodup_length_le {A : Type} (dec : forall x y : A, {x = y} + {x <> y}) (l : list A) :
  (List.length (nodup dec l) <= List.length l)%nat.
Proof.
  induction l as [|x l IH]; simpl; [lia|].
  destruct (in_dec dec x l); simpl; lia.
Qed.

Lemma sorted_distinct_strict {A : Type} (key : A -> Z) (l : list A) :
  StronglySorted (desc key) l -> NoDup (map key l) ->
  StronglySorted (fun a b => key b < key a) l.
Proof.
  induction 1 as [|x l Hs IH Hx]; simpl; intros Hnd; constructor;
    inversion Hnd as [|? ? Hnx Hnl]; subst.
  - now apply IH.
  - apply Forall_forall. intros y Hy.
    pose proof (proj1 (Forall_forall _ _) Hx y Hy) as Hle. unfold desc in Hle.
    assert (key y <> key x) by (intros E; apply Hnx; rewrite <- E; now apply in_map).
    lia.
Qed.

Lemma breakdown_keys {A : Type} (dec : forall x y : A, {x = y} + {x <> y})
    (key : A * Z -> Z) (ks : list A) :
  NoDup (map fst (order_by_desc key (group_count dec ks))).
Proof.
  apply (Permutation_NoDup (l := map fst (group_count dec ks))).
  - apply Permutation_map. symmetry. apply order_by_desc_perm.
  - rewrite group_count_keys. apply NoDup_nodup.
Qed.

(** [admin_panel] for a caller whose id is not the administrator's issues no
    statement: the caller gets no figures and a failing store cannot make
    the handler fail.  For the administrator the five queries run outside
    any [try]: if one of them fails the exception leaves the handler,
    unlike in the tracking functions.  The store is never changed. *)
Theorem admin_panel_guard :
  forall (admin_id from_user now : Z) (f : option nat) (d : db),
    let x := run (admin_panel admin_id from_user now) f d in
    store_of x = d /\
    (from_user <> admin_id -> result_of x = Returned None) /\
    (from_user = admin_id -> hits f 5 = true -> result_of x = Raised StoreError) /\
    (from_user = admin_id -> hits f 5 = false ->
     exists g, result_of x = Returned (Some g)).
Proof.
  intros admin_id from_user now f d x. subst x.
  unfold admin_panel. simpl existsb. rewrite orb_false_r.
  destruct (from_user =? admin_id) eqn:E; cbn [negb].
  - apply Z.eqb_eq in E. run_unfold.
    destruct f as [[|[|[|[|[|k]]]]]|]; simpl;
      (split; [reflexivity|]); (split; [intros H; congruence|]);
      (split; intros _ H; try discriminate H; eauto).
  - apply Z.eqb_neq in E.
    split; [reflexivity|]. split; [reflexivity|]. split; intros H; congruence.
Qed.

Lemma admin_panel_guard_witness :
  result_of (run (admin_panel 7 7 1700000900) (Some 2%nat) store_bob_clicks)
  = Raised StoreError.
Proof.
  apply (admin_panel_guard 7 7 1700000900 (Some 2%nat) store_bob_clicks); reflexivity.
Defined.

(** The figures of [admin_panel] fit together.  The two totals are the
    sizes of the two tables; the active users are at most the users; the
    lines per platform have pairwise distinct platforms, come in descending
    order of count and add up to the total of clicks; the lines per day have
    strictly descending days, none before the day of seven days ago, no
    empty day, and add up to the number of clicks of the last seven days.
    On a store the bot has reached every platform listed is a key of
    [PARTNER_LINKS]. *)
Theorem admin_panel_totals :
  forall (admin_id now : Z) (d : db) (g : global_stats),
    result_of (run (admin_panel admin_id admin_id now) None d) = Returned (Some g) ->
    total_users g = Z.of_nat (List.length (users d)) /\
    all_clicks g = Z.of_nat (List.length (clicks d)) /\
    0 <= active_users g <= total_users g /\
    NoDup (map fst (platform_stats g)) /\
    StronglySorted (desc snd) (platform_stats g) /\
    sum_counts (platform_stats g) = all_clicks g /\
    StronglySorted (fun a b => fst b < fst a) (daily_stats g) /\
    (forall day n, In (day, n) (daily_stats g) ->
                   DATE (now - 7 * 86400) <= day /\ 0 < n) /\
    sum_counts (daily_stats g) =
      Z.of_nat (List.length (filter (fun c => now - 7 * 86400 <? clicked_at c) (clicks d))) /\
    sum_counts (daily_stats g) <= all_clicks g /\
    (reachable d ->
     forall p n, In (p, n) (platform_stats g) -> dict_in p PARTNER_LINKS = true).
Proof.
  intros admin_id now d g H. rewrite admin_panel_result in H. injection H as <-.
  cbn [total_users all_clicks active_users platform_stats daily_stats].
  unfold select_total_users, select_total_clicks, select_active_users,
    select_platform_stats, select_daily_stats, seven_days; cbn [fst].
  set (recent := filter (fun c => now - 7 * 86400 <? clicked_at c) (clicks d)).
  assert (Hsum_days :
            sum_counts (order_by_desc fst
                          (group_count Z.eq_dec (map (fun c => DATE (clicked_at c)) recent)))
            = Z.of_nat (List.length recent)).
  { rewrite (sum_counts_permutation _ _ (order_by_desc_perm fst _)).
    now rewrite sum_counts_group_count, length_map. }
  split; [reflexivity|]. split; [reflexivity|]. split.
  { split; [lia|]. apply inj_le.
    etransitivity; [apply nodup_length_le|]. rewrite length_map. apply filter_length_le. }
  split; [apply breakdown_keys|]. split; [apply order_by_desc_sorted|]. split.
  { rewrite (sum_counts_permutation _ _ (order_by_desc_perm snd _)).
    now rewrite sum_counts_group_count, length_map. }
  split.
  { apply sorted_distinct_strict; [apply order_by_desc_sorted | apply breakdown_keys]. }
  split.
  { intros day n Hin.
    apply (Permutation_in _ (order_by_desc_perm fst _)), group_count_In in Hin.
    destruct Hin as [Hday ->]. split.
    - apply in_map_iff in Hday as (c & <- & Hc).
      apply filter_In in Hc as [_ Hc]. apply Z.ltb_lt in Hc.
      unfold DATE. apply Z.div_le_mono; lia.
    - apply (count_occ_In Z.eq_dec) in Hday. lia. }
  split; [exact Hsum_days|]. split.
  { rewrite Hsum_days. apply inj_le. apply filter_length_le. }
  intros Hreach p n Hin.
  apply (Permutation_in _ (order_by_desc_perm snd _)), group_count_In in Hin.
  destruct Hin as [Hp _]. apply in_map_iff in Hp as (c & <- & Hc).
  now apply (reachable_platforms d Hreach).
Qed.

Lemma admin_panel_totals_witness :
  let g := mk_global_stats 1 1 3 [("skillbox", 2); ("geekbrains", 1)] [(19675, 3)] in
  total_users g = Z.of_nat (List.length (users store_bob_clicks)) /\
  all_clicks g = Z.of_nat (List.length (clicks store_bob_clicks)) /\
  0 <= active_users g <= total_users g /\
  NoDup (map fst (platform_stats g)) /\
  StronglySorted (desc snd) (platform_stats g) /\
  sum_counts (platform_stats g) = all_clicks g /\
  StronglySorted (fun a b => fst b < fst a) (daily_stats g) /\
  (forall day n, In (day, n) (daily_stats g) ->
                 DATE (1700000900 - 7 * 86400) <= day /\ 0 < n) /\
  sum_counts (daily_stats g) =
    Z.of_nat (List.length (filter (fun c => 1700000900 - 7 * 86400 <? clicked_at c)
                                  (clicks store_bob_clicks))) /\
  sum_counts (daily_stats g) <= all_clicks g /\
  (reachable store_bob_clicks ->
   forall p n, In (p, n) (platform_stats g) -> dict_in p PARTNER_LINKS = true).
Proof.
  apply (admin_panel_totals 7 1700000900 store_bob_clicks).
  vm_compute. reflexivity.
Defined.

(** ** [get_user_stats] under a failing store *)

(** [get_user_stats] never raises and never changes the store.  If one of
    the queries it issues fails, its answer for a registered user is [None],
    the answer an unregistered user gets; a fault that falls after its three
    queries does not show. *)
Theorem get_user_stats_failing_store :
  forall (tid : Z) (f : option nat) (d : db),
    let x := run (get_user_stats tid) f d in
    store_of x = d /\
    (exists r, result_of x = Returned r) /\
    (hits f 3 = true -> result_of x = Returned None) /\
    (hits f 3 = false -> result_of x = result_of (run (get_user_stats tid) None d)).
Proof.
  intros tid f d x. subst x.
  rewrite get_user_stats_store, !get_user_stats_result.
  split; [reflexivity|]. split; [eauto|].
  split; intros E; rewrite E; [|reflexivity].
  now destruct (fst (select_user_data tid d)).
Qed.

Lemma get_user_stats_failing_store_witness :
  result_of (run (get_user_stats 42) (Some 1%nat) store_bob_clicks) = Returned None.
Proof.
  apply (get_user_stats_failing_store 42 (Some 1%nat) store_bob_clicks). reflexivity.
Defined.

(** ** The tables behind a course card *)

Lemma dict_get_in_dict {V : Type} (key : string) (dict : list (string * V)) (default : V) :
  dict_in key dict = true -> In (key, dict_get key dict default) dict.
Proof.
  unfold dict_in. induction dict as [|[k v] dict IH]; simpl; [discriminate|].
  destruct (String.eqb key k) eqn:E; simpl.
  - intros _. left. apply String.eqb_eq in E. now subst.
  - intros H. right. now apply IH.
Qed.

(** The card of every course of the catalogue is filled from the tables:
    its display name, its commission and its partner link are the entries
    of [PLATFORM_NAMES], [COMMISSIONS] and [PARTNER_LINKS] for the platform
    of the course, never the fallbacks (the bare platform name, "15-30%",
    "#"), and the first button of its keyboard opens that partner link. *)
Theorem course_card_from_tables :
  forall (user now : Z) (d : db) (c : course),
    In c (flat_map snd COURSES_DATA) ->
    exists pn cm pl rows,
      snd (show_course_detail user (course_callback c) now d) =
        CourseCard c pn cm pl ([UrlButton "🌐 Перейти на сайт курса" pl] :: rows) /\
      In (co_platform c, pn) PLATFORM_NAMES /\
      In (co_platform c, cm) COMMISSIONS /\
      In (co_platform c, pl) PARTNER_LINKS.
Proof.
  intros user now d c Hin.
  assert (F : forallb (fun c' => dict_in (co_platform c') PLATFORM_NAMES &&
                                 dict_in (co_platform c') COMMISSIONS &&
                                 dict_in (co_platform c') PARTNER_LINKS)
                      (flat_map snd COURSES_DATA) = true) by (vm_compute; reflexivity).
  apply (proj1 (forallb_forall _ _) F) in Hin as Hk.
  apply andb_true_iff in Hk as [Hk H3]. apply andb_true_iff in Hk as [H1 H2].
  unfold show_course_detail, course_callback.
  rewrite (parse_course_id_callback _ (COURSES_DATA_small_ids c Hin)),
    (find_course_unique _ c COURSES_DATA_ids Hin).
  cbn [snd]. do 4 eexists. split; [reflexivity|].
  split; [|split]; now apply dict_get_in_dict.
Qed.

Lemma course_card_from_tables_witness :
  match find_course COURSES_DATA 9 with
  | Some c =>
      exists pn cm pl rows,
        snd (show_course_detail 42 (course_callback c) 1700000900 store_bob) =
          CourseCard c pn cm pl ([UrlButton "🌐 Перейти на сайт курса" pl] :: rows) /\
        In (co_platform c, pn) PLATFORM_NAMES /\
        In (co_platform c, cm) COMMISSIONS /\
        In (co_platform c, pl) PARTNER_LINKS
  | None => False
  end.
Proof.
  destruct (find_course COURSES_DATA 9) as [c|] eqn:E.
  - apply (course_card_from_tables 42 1700000900 store_bob c).
    now apply (find_course_in _ _ _ E).
  - vm_compute in E. discriminate E.
Defined.
